(** * FileTransformer: the column-transform rule engine and the quote cleanup

    A shallow embedding of [manual_transform.py].  The script reads a
    spreadsheet into a pandas [DataFrame], rewrites a fixed set of named
    columns (one rule table for Enrollment files, one for Usage files),
    writes the frame as CSV and finally collapses triple double-quotes in the
    serialized text.

    Modelling choices, all visible in the definitions below:
    - text is a Rocq [string], one [ascii] per character;
    - a cell is dynamically typed, as in an [object] column: null (None, NaN,
      NaT), text, integer, float or timestamp.  A float is carried by its
      printed form, the only thing the transforms observe of it; a timestamp
      is carried by its calendar date, without time zone, the only part
      [%Y-%m-%d] prints;
    - a frame is the ordered list of its named columns, with distinct names
      as the spreadsheet reader delivers them; [df.loc[mask, col] = ...] and
      [df[col] = ...] rewrite the column named [col] where it stands, the
      column taking the [object] type when text is stored among numbers;
    - reading a column that the frame does not have raises [KeyError]: the
      frame operations return an [option], and so do the functions built on
      them;
    - paths are POSIX paths, and [lower] acts on the ASCII letters;
    - the pandas best-effort date parser is not part of the repository: it
      is a parameter [parse] of the engine.  What [pd.to_datetime(...,
      errors='coerce')] guarantees around it (nulls and out-of-range values
      become NaT, one result per cell) is written out in [to_datetime],
      with the range of the nanosecond timestamps of pandas 2;
    - [Series.str.zfill] is Python's [str.zfill], which keeps a leading sign
      in front of the inserted zeros. *)

From Stdlib Require Import String Ascii List ZArith Lia Bool Arith.
From Stdlib Require Import Numbers.DecimalString.
Import ListNotations.

Open Scope string_scope.

(** ** Text primitives (Python [str] methods used by the script) *)

Module Text.

Definition dquote : ascii := "034"%char.
Definition squote : ascii := "'"%char.

(** The one-character and three-character quote strings of the cleanup. *)
Definition Q : string := String dquote EmptyString.
Definition QQQ : string := String dquote (String dquote (String dquote EmptyString)).

(** [s.split(sep)[0]]: the text before the first [sep]. *)
Fixpoint split_first (sep : ascii) (s : string) : string :=
  match s with
  | EmptyString => EmptyString
  | String c r =>
      if Ascii.eqb c sep then EmptyString else String c (split_first sep r)
  end.

Fixpoint zeros (n : nat) : string :=
  match n with
  | O => EmptyString
  | S k => String "0"%char (zeros k)
  end.

Definition is_sign (c : ascii) : bool :=
  Ascii.eqb c "+"%char || Ascii.eqb c "-"%char.

(** [s.zfill(width)]: unchanged when already [width] long; otherwise
    zeros are inserted, after a leading sign when there is one. *)
Definition zfill (width : nat) (s : string) : string :=
  if (width <=? String.length s)%nat then s
  else
    let fill := zeros (width - String.length s) in
    match s with
    | String c r => if is_sign c then String c (fill ++ r) else fill ++ s
    | EmptyString => fill
    end.

(** [s.find(old)]: index of the leftmost occurrence. *)
Fixpoint find (old s : string) : option nat :=
  if prefix old s then Some 0
  else
    match s with
    | EmptyString => None
    | String _ r => option_map S (find old r)
    end.

(** [s.replace(old, new)] for a non-empty [old]: scan from the left, at
    each match emit [new] and step over the match, otherwise copy one
    character. *)
Fixpoint replace_from (old new : string) (skip : nat) (s : string) : string :=
  match s with
  | EmptyString => EmptyString
  | String c r =>
      match skip with
      | S k => replace_from old new k r
      | O =>
          if prefix old s then new ++ replace_from old new (String.length old - 1) r
          else String c (replace_from old new 0 r)
      end
  end.

Definition replace (old new s : string) : string := replace_from old new 0 s.

Fixpoint take (n : nat) (s : string) : string :=
  match n, s with
  | S k, String c r => String c (take k r)
  | _, _ => EmptyString
  end.

Fixpoint drop (n : nat) (s : string) : string :=
  match n, s with
  | S k, String _ r => drop k r
  | _, _ => s
  end.

(** [s.lower()] on the ASCII letters. *)
Definition lower_char (c : ascii) : ascii :=
  let n := nat_of_ascii c in
  if ((65 <=? n) && (n <=? 90))%nat then ascii_of_nat (n + 32) else c.

Fixpoint lower (s : string) : string :=
  match s with
  | EmptyString => EmptyString
  | String c r => String (lower_char c) (lower r)
  end.

(** [sub in s]. *)
Definition contains (sub s : string) : bool :=
  match find sub s with
  | Some _ => true
  | None => false
  end.

Fixpoint has_char (ch : ascii) (s : string) : bool :=
  match s with
  | EmptyString => false
  | String c r => Ascii.eqb c ch || has_char ch r
  end.

(** [os.path.basename(p)]: what follows the last slash. *)
Fixpoint basename (p : string) : string :=
  match p with
  | EmptyString => EmptyString
  | String _ r => if has_char "/"%char p then basename r else p
  end.

(** [str(n)] for a Python [int]. *)
Definition str_of_int (n : Z) : string := NilZero.string_of_int (Z.to_int n).

Definition str_of_nat (n : nat) : string := NilZero.string_of_uint (Nat.to_uint n).

Definition is_digit (c : ascii) : bool :=
  let n := nat_of_ascii c in ((48 <=? n) && (n <=? 57))%nat.

End Text.

Import Text.

(** ** Cells and frames *)

(** A pandas [Timestamp] at midnight, carried by its calendar date; times
    of day are outside the model. *)
Record Timestamp : Type := mkTimestamp { year : nat; month : nat; day : nat }.

Inductive cell : Type :=
| CNull
| CStr (s : string)
| CInt (n : Z)
| CFloat (repr : string)
| CDate (ts : Timestamp).

(** A frame: its columns in order, each a name and one cell per row. *)
Definition Column : Type := (string * list cell)%type.
Definition DataFrame : Type := list Column.

Definition is_leap (y : nat) : bool :=
  ((y mod 4 =? 0) && negb (y mod 100 =? 0) || (y mod 400 =? 0))%nat.

Definition days_in_month (y m : nat) : nat :=
  match m with
  | 2 => if is_leap y then 29 else 28
  | 4 | 6 | 9 | 11 => 30
  | _ => 31
  end.

(** A date that exists in the calendar. *)
Definition calendar_date (ts : Timestamp) : bool :=
  ((1 <=? month ts) && (month ts <=? 12)
   && (1 <=? day ts) && (day ts <=? days_in_month (year ts) (month ts)))%nat.

(** Dates in calendar order. *)
Definition date_leb (a b : Timestamp) : bool :=
  ((year a <? year b)
   || (year a =? year b)
      && ((month a <? month b)
          || (month a =? month b) && (day a <=? day b)))%nat.

(** The first and the last midnight that a nanosecond [Timestamp] holds:
    its range starts on 21 September 1677 at 00:12:43 and ends on 11 April
    2262 at 23:47:16. *)
Definition first_midnight : Timestamp := mkTimestamp 1677 9 22.
Definition last_midnight : Timestamp := mkTimestamp 2262 4 11.

(** A calendar date whose midnight a nanosecond [Timestamp] can hold. *)
Definition in_bounds (ts : Timestamp) : bool :=
  calendar_date ts && date_leb first_midnight ts && date_leb ts last_midnight.

(** [ts.strftime('%Y-%m-%d')]. *)
Definition strftime (ts : Timestamp) : string :=
  zfill 4 (str_of_nat (year ts)) ++ "-" ++
  zfill 2 (str_of_nat (month ts)) ++ "-" ++
  zfill 2 (str_of_nat (day ts)).

(** [Series.notna()] on one cell. *)
Definition notna (c : cell) : bool :=
  match c with
  | CNull => false
  | _ => true
  end.

(** [Series.astype(str)] on one cell; a timestamp is printed as a datetime
    column of midnights prints it, by its date. *)
Definition astype_str (c : cell) : string :=
  match c with
  | CNull => "nan"
  | CStr s => s
  | CInt n => str_of_int n
  | CFloat repr => repr
  | CDate ts => strftime ts
  end.

(** ** Frame operations

    A lookup of a column that the frame does not have raises [KeyError] in
    pandas: such operations return an [option], [None] standing for the
    raised error. *)

Definition bind {A B : Type} (m : option A) (k : A -> option B) : option B :=
  match m with
  | Some a => k a
  | None => None
  end.

Notation "x <- m ;; k" := (bind m (fun x => k))
  (at level 61, m at next level, right associativity).

(** [col in df.columns]. *)
Definition has_column (col : string) (df : DataFrame) : bool :=
  existsb (String.eqb col) (map fst df).

(** [df[col]] read: the cells of the column named [col], or [KeyError]. *)
Fixpoint getitem (col : string) (df : DataFrame) : option (list cell) :=
  match df with
  | [] => None
  | (name, cells) :: rest =>
      if String.eqb name col then Some cells else getitem col rest
  end.

(** [df[col] = cells], also [df.loc[mask, col] = ...] once the cells out of
    the mask are carried over: the column named [col] is replaced where it
    stands; a name the frame does not have is added as a last column. *)
Fixpoint setitem (col : string) (cells : list cell) (df : DataFrame) : DataFrame :=
  match df with
  | [] => [(col, cells)]
  | (name, old) :: rest =>
      if String.eqb name col then (name, cells) :: rest
      else (name, old) :: setitem col cells rest
  end.

(** The cell of column [col] in row [i], when there is one. *)
Definition get_cell (col : string) (i : nat) (df : DataFrame) : option cell :=
  match getitem col df with
  | Some cells => nth_error cells i
  | None => None
  end.

(** The shape of a frame: column names in order, with the row count of each. *)
Definition shape (df : DataFrame) : list (string * nat) :=
  map (fun c : Column => (fst c, List.length (snd c))) df.

(** [.astype(str).F] on a non-null cell, for a text function [F]; a null
    cell is out of the mask and keeps its value. *)
Definition text_cell (f : string -> string) (c : cell) : cell :=
  if notna c then CStr (f (astype_str c)) else c.

(** [mask = df[col].notna(); df.loc[mask, col] = df.loc[mask, col].astype(str).F] *)
Definition masked_assign (col : string) (f : string -> string) (df : DataFrame)
    : option DataFrame :=
  cells <- getitem col df ;;
  Some (setitem col (map (text_cell f) cells) df).

(** ** The column transforms *)

Definition Parser : Type := list cell -> cell -> option Timestamp.

(** What the conversion reads in one cell of the column [cells], before
    the range of [Timestamp] is looked at: nothing in a null cell, the
    timestamp of a timestamp cell, and for anything else what the parser
    makes of it, the parser seeing the whole column. *)
Definition parsed_value (parse : Parser) (cells : list cell) (c : cell)
    : option Timestamp :=
  match c with
  | CNull => None
  | CDate ts => Some ts
  | _ => parse cells c
  end.

(** [pd.to_datetime(series, errors='coerce')] on one cell of the column
    [cells], [None] standing for NaT.  A value the parser rejects, or a
    date a [Timestamp] cannot hold, is coerced to NaT. *)
Definition coerce_datetime (parse : Parser) (cells : list cell) (c : cell)
    : option Timestamp :=
  match parsed_value parse cells c with
  | Some ts => if in_bounds ts then Some ts else None
  | None => None
  end.

Definition to_datetime (parse : Parser) (cells : list cell) : list (option Timestamp) :=
  map (coerce_datetime parse cells) cells.

(** [series.dt.strftime('%Y-%m-%d')]: NaT gives a null cell. *)
Definition dt_strftime (stamps : list (option Timestamp)) : list cell :=
  map (fun o => match o with
                | Some ts => CStr (strftime ts)
                | None => CNull
                end) stamps.

(** The f-string of the quote rule: double quote, [x], double quote. *)
Definition double_quoted (x : string) : string := Q ++ x ++ Q.

(** The f-string of the custom rule: double quote, single quote, [x],
    single quote, double quote. *)
Definition custom_quoted (x : string) : string :=
  String dquote (String squote (x ++ String squote (String dquote EmptyString))).

(** [.str.split('.').str[0].str.zfill(length)] *)
Definition zero_padded (length : nat) (x : string) : string :=
  zfill length (split_first "."%char x).

(** [.str.replace(',', '')] *)
Definition comma_stripped (x : string) : string := replace "," "" x.

(** The five guarded column rewrites that the two functions are made of. *)
Definition quote_wrap (col : string) (df : DataFrame) : option DataFrame :=
  if has_column col df then masked_assign col double_quoted df else Some df.

Definition custom_wrap (col : string) (df : DataFrame) : option DataFrame :=
  if has_column col df then masked_assign col custom_quoted df else Some df.

Definition date_format (parse : Parser) (col : string) (df : DataFrame)
    : option DataFrame :=
  if has_column col df
  then cells <- getitem col df ;;
       Some (setitem col (dt_strftime (to_datetime parse cells)) df)
  else Some df.

Definition zero_pad (col : string) (length : nat) (df : DataFrame) : option DataFrame :=
  if has_column col df then masked_assign col (zero_padded length) df else Some df.

Definition strip_commas (col : string) (df : DataFrame) : option DataFrame :=
  if has_column col df then masked_assign col comma_stripped df else Some df.

(** [for col in cols: body], threading the frame; an error ends the loop. *)
Fixpoint for_each {A : Type} (body : A -> DataFrame -> option DataFrame)
    (cols : list A) (df : DataFrame) : option DataFrame :=
  match cols with
  | [] => Some df
  | col :: rest => df' <- body col df ;; for_each body rest df'
  end.

Module Enrollment.
Definition double_quote_cols : list string :=
  ["CUSTOMER_NAME"; "CUSTOMER_SERVICE_ADDRESS"; "CUSTOMER_SERVICE_CITY_STATE_ZIP";
   "TX_TAR_SHORT_DESC"; "TX_TAR_SCH_DESC"].
Definition triple_quote_col : string := "TX_SERV_SUPP".
Definition date_cols : list string :=
  ["DT_EFF"; "CUST_ENR_START_DATE"; "CUST_EDI_DROP_DATE"; "LAST_UPDATE"].
Definition padding_cols : list (string * nat) :=
  [("CITY_GATE", 4); ("KY_MTR_BILL_GRP", 2); ("CD_SERV_SUPP", 4)].
Definition comma_removal_cols : list string :=
  ["TOT_ANNUAL_USAGE"; "CUST_PEAK_DAY"; "CUST_BASE_LOAD"; "CUST_THERMAL_RESPONSE"].
End Enrollment.

Definition apply_enrollment_transforms (parse : Parser) (df : DataFrame)
    : option DataFrame :=
  df <- for_each quote_wrap Enrollment.double_quote_cols df ;;
  df <- custom_wrap Enrollment.triple_quote_col df ;;
  df <- for_each (date_format parse) Enrollment.date_cols df ;;
  df <- for_each (fun cl => zero_pad (fst cl) (snd cl)) Enrollment.padding_cols df ;;
  df <- for_each strip_commas Enrollment.comma_removal_cols df ;;
  Some df.

Module Usage.
Definition double_quote_cols : list string :=
  ["CUST_NAME"; "CUST_SERV_ADDR"; "CUST_SERV_CITY_ST_ZIP"; "CUST_POOL_ID"].
Definition date_cols : list string :=
  ["DT_LST_BLLD"; "DT_RDG_FROM"; "DT_RDG_TO"; "DT_ENTERED"].
Definition comma_removal_cols : list string := ["USAGE"; "QY_BTU_FACTOR"].
End Usage.

Definition apply_usage_transforms (parse : Parser) (df : DataFrame)
    : option DataFrame :=
  df <- for_each quote_wrap Usage.double_quote_cols df ;;
  df <- for_each (date_format parse) Usage.date_cols df ;;
  df <- zero_pad "KY_MTR_BILL_GRP" 2 df ;;
  df <- zero_pad "CITY_GATE" 4 df ;;
  df <- zero_pad "CD_BILL_PRCS_INSTR" 4 df ;;
  df <- zero_pad "CD_SERV_SUPP" 4 df ;;
  df <- for_each strip_commas Usage.comma_removal_cols df ;;
  Some df.

(** ** The rule view of the two functions

    Each guarded rewrite above is one rule bound to one column; a category
    rule set is the list of rules in the order the function runs them. *)

Inductive Rule : Type :=
| QuoteWrap (col : string)
| CustomWrap (col : string)
| DateFormat (col : string)
| ZeroPad (col : string) (width : nat)
| StripSeparator (col : string).

Definition target (r : Rule) : string :=
  match r with
  | QuoteWrap col | CustomWrap col | DateFormat col
  | ZeroPad col _ | StripSeparator col => col
  end.

Definition apply_rule (parse : Parser) (r : Rule) (df : DataFrame) : option DataFrame :=
  match r with
  | QuoteWrap col => quote_wrap col df
  | CustomWrap col => custom_wrap col df
  | DateFormat col => date_format parse col df
  | ZeroPad col width => zero_pad col width df
  | StripSeparator col => strip_commas col df
  end.

Definition apply_rules (parse : Parser) (rules : list Rule) (df : DataFrame)
    : option DataFrame :=
  for_each (apply_rule parse) rules df.

Definition enrollment_rules : list Rule :=
  map QuoteWrap Enrollment.double_quote_cols
  ++ [CustomWrap Enrollment.triple_quote_col]
  ++ map DateFormat Enrollment.date_cols
  ++ map (fun cl => ZeroPad (fst cl) (snd cl)) Enrollment.padding_cols
  ++ map StripSeparator Enrollment.comma_removal_cols.

Definition usage_rules : list Rule :=
  map QuoteWrap Usage.double_quote_cols
  ++ map DateFormat Usage.date_cols
  ++ [ZeroPad "KY_MTR_BILL_GRP" 2; ZeroPad "CITY_GATE" 4;
      ZeroPad "CD_BILL_PRCS_INSTR" 4; ZeroPad "CD_SERV_SUPP" 4]
  ++ map StripSeparator Usage.comma_removal_cols.

(** The date rewrite seen on one cell of the column [cells]. *)
Definition date_cell (parse : Parser) (cells : list cell) (c : cell) : cell :=
  match coerce_datetime parse cells c with
  | Some ts => CStr (strftime ts)
  | None => CNull
  end.

(** The effect of a rule on one cell [c] of its target column [cells]. *)
Definition rule_cell (parse : Parser) (r : Rule) (cells : list cell) (c : cell) : cell :=
  match r with
  | QuoteWrap _ => text_cell double_quoted c
  | CustomWrap _ => text_cell custom_quoted c
  | DateFormat _ => date_cell parse cells c
  | ZeroPad _ width => text_cell (zero_padded width) c
  | StripSeparator _ => text_cell comma_stripped c
  end.

(** The frame a rule leaves behind: its target column rewritten cell by
    cell, or the frame itself when the column is missing. *)
Definition rule_result (parse : Parser) (r : Rule) (df : DataFrame) : DataFrame :=
  match getitem (target r) df with
  | Some cells => setitem (target r) (map (rule_cell parse r cells) cells) df
  | None => df
  end.

(** The frame a rule set leaves behind. *)
Definition rules_result (parse : Parser) (rules : list Rule) (df : DataFrame) : DataFrame :=
  fold_left (fun d r => rule_result parse r d) rules df.

(** ** Dispatch on the file name *)

Inductive Category : Type := EnrollmentFile | UsageFile | UnknownFile.

(** The file type of the scan loop: Enrollment if [enrollment] occurs in
    the lowered name, else Usage if [usage] does, else Unknown; the same
    tests in the same order as in [transform_excel_data]. *)
Definition file_type (file_name_lower : string) : Category :=
  if contains "enrollment" file_name_lower then EnrollmentFile
  else if contains "usage" file_name_lower then UsageFile
  else UnknownFile.

(** What [transform_excel_data] ends with: the frame handed to [to_csv]
    when it returns [True], and the three ways of returning [False]. *)
Inductive Outcome : Type :=
| Saved (df : DataFrame)
| ReadFailed
| Skipped
| TransformFailed.

(** The [try] around the dispatch: a raised error is logged and the file
    fails. *)
Definition caught (result : option DataFrame) : Outcome :=
  match result with
  | Some df => Saved df
  | None => TransformFailed
  end.

(** [transform_excel_data]; [read_excel] is the spreadsheet reader, [None]
    when reading fails. *)
Definition transform_excel_data (parse : Parser)
    (read_excel : string -> option DataFrame) (input_file : string) : Outcome :=
  let file_name_lower := lower (basename input_file) in
  match read_excel input_file with
  | None => ReadFailed
  | Some df =>
      if contains "enrollment" file_name_lower
      then caught (apply_enrollment_transforms parse df)
      else if contains "usage" file_name_lower
      then caught (apply_usage_transforms parse df)
      else Skipped
  end.

(** ** The cleanup pass *)

(** Text files by path. *)
Definition FileSystem : Type := string -> option string.

Definition write_file (path content : string) (fs : FileSystem) : FileSystem :=
  fun p => if String.eqb p path then Some content else fs p.

(** [content.replace(old, new)] with three double quotes for [old] and one
    for [new]. *)
Definition cleanup (content : string) : string := replace QQQ Q content.

(** [find_and_replace_quotes]: nothing is written when the input is missing. *)
Definition find_and_replace_quotes (input_file output_file : string)
    (fs : FileSystem) : FileSystem :=
  match fs input_file with
  | None => fs
  | Some content => write_file output_file (cleanup content) fs
  end.

(** ** A concrete parser

    Numeric year-month-day text such as [2024-3-5], read field by field.
    It instantiates the engine on concrete frames. *)

Fixpoint split_all (sep : ascii) (s : string) : list string :=
  match s with
  | EmptyString => [EmptyString]
  | String c r =>
      if Ascii.eqb c sep then EmptyString :: split_all sep r
      else
        match split_all sep r with
        | h :: t => String c h :: t
        | [] => [String c EmptyString]
        end
  end.

Fixpoint digits_value (acc : nat) (s : string) : option nat :=
  match s with
  | EmptyString => Some acc
  | String c r =>
      if is_digit c then digits_value (10 * acc + (nat_of_ascii c - 48)) r
      else None
  end.

Definition field_value (s : string) : option nat :=
  match s with
  | EmptyString => None
  | _ => digits_value 0 s
  end.

Definition ymd_parser : Parser :=
  fun _ c =>
    match c with
    | CStr s =>
        match split_all "-"%char s with
        | [y; m; d] =>
            match field_value y, field_value m, field_value d with
            | Some y', Some m', Some d' => Some (mkTimestamp y' m' d')
            | _, _, _ => None
            end
        | _ => None
        end
    | _ => None
    end.

(** Sample data. *)
Definition jane_row : DataFrame :=
  [("CUSTOMER_NAME", [CStr "Jane Doe"]);
   ("DT_EFF", [CStr "2023-01-15"]);
   ("CITY_GATE", [CInt 7])].

Definition jane_row_done : DataFrame :=
  [("CUSTOMER_NAME", [CStr (Q ++ "Jane Doe" ++ Q)]);
   ("DT_EFF", [CStr "2023-01-15"]);
   ("CITY_GATE", [CStr "0007"])].

(** The fixed pattern of a formatted date: four digits, a hyphen, two
    digits, a hyphen, two digits. *)
Fixpoint all_digits (s : string) : bool :=
  match s with
  | EmptyString => true
  | String c r => is_digit c && all_digits r
  end.

Definition digits_n (n : nat) (s : string) : bool :=
  (String.length s =? n)%nat && all_digits s.

Definition ymd_pattern (s : string) : bool :=
  digits_n 4 (take 4 s)
  && String.eqb (take 1 (drop 4 s)) "-"
  && digits_n 2 (take 2 (drop 5 s))
  && String.eqb (take 1 (drop 7 s)) "-"
  && digits_n 2 (drop 8 s).

(** ** More text primitives *)

(** [s.count(old)] for a non-empty [old]: the matches the scan of
    [replace] meets, from the left and without overlap. *)
Fixpoint count_from (old : string) (skip : nat) (s : string) : nat :=
  match s with
  | EmptyString => 0
  | String _ r =>
      match skip with
      | S k => count_from old k r
      | O =>
          if prefix old s then S (count_from old (String.length old - 1) r)
          else count_from old 0 r
      end
  end.

Definition count (old s : string) : nat := count_from old 0 s.

(** The text with every [ch] taken out. *)
Fixpoint without (ch : ascii) (s : string) : string :=
  match s with
  | EmptyString => EmptyString
  | String c r => if Ascii.eqb c ch then without ch r else String c (without ch r)
  end.

(** A run of [n] double quotes. *)
Fixpoint quotes (n : nat) : string :=
  match n with
  | O => EmptyString
  | S k => String dquote (quotes k)
  end.

(** [s.startswith(p)] and [s.endswith(suffix)]. *)
Definition startswith (p s : string) : bool := prefix p s.

Definition endswith (suffix s : string) : bool :=
  (String.length suffix <=? String.length s)%nat
  && String.eqb (drop (String.length s - String.length suffix) s) suffix.

(** [s.rfind(ch)]: index of the last [ch]. *)
Fixpoint rfind_char (ch : ascii) (s : string) : option nat :=
  match s with
  | EmptyString => None
  | String c r =>
      match rfind_char ch r with
      | Some i => Some (S i)
      | None => if Ascii.eqb c ch then Some 0 else None
      end
  end.

Fixpoint all_dots (s : string) : bool :=
  match s with
  | EmptyString => true
  | String c r => Ascii.eqb c "."%char && all_dots r
  end.

(** [os.path.splitext(p)]: cut before the last dot of the last path
    component, unless only dots precede it there. *)
Definition splitext (p : string) : string * string :=
  match rfind_char "."%char p with
  | None => (p, EmptyString)
  | Some dotIndex =>
      let filenameIndex :=
        match rfind_char "/"%char p with
        | Some sepIndex => S sepIndex
        | None => 0
        end in
      if (filenameIndex <=? dotIndex)%nat
         && negb (all_dots (take (dotIndex - filenameIndex) (drop filenameIndex p)))
      then (take dotIndex p, drop dotIndex p)
      else (p, EmptyString)
  end.

(** [os.path.join(a, b)]. *)
Definition join (a b : string) : string :=
  if startswith "/" b then b
  else if String.eqb a "" || endswith "/" a then a ++ b
  else a ++ "/" ++ b.


(** ** The CSV writer on one field

    [to_csv] writes through the [csv] module with minimal quoting: a field
    holding a comma, a double quote or a line break is put between double
    quotes, its own double quotes doubled; any other field is written as it
    is. *)

Fixpoint doubled (s : string) : string :=
  match s with
  | EmptyString => EmptyString
  | String c r =>
      if Ascii.eqb c dquote then String dquote (String dquote (doubled r))
      else String c (doubled r)
  end.

Definition needs_quoting (field : string) : bool :=
  has_char ","%char field || has_char dquote field
  || has_char "010"%char field || has_char "013"%char field.

Definition csv_field (field : string) : string :=
  if needs_quoting field then Q ++ doubled field ++ Q else field.

(** ** The folder scan *)

(** The test that makes the loop skip an entry: a directory, a name that
    starts with a tilde, or a name without a spreadsheet extension. *)
Definition skipped (isdir : string -> bool) (input_path filename : string) : bool :=
  isdir input_path
  || startswith "~" filename
  || negb (endswith ".xlsx" (lower filename) || endswith ".xls" (lower filename)).

Definition intermediate_csv_filename (target_dir filename : string) : string :=
  join target_dir (fst (splitext filename) ++ "_intermediate.csv").

Definition final_output_filename (target_dir filename : string) : string :=
  join target_dir (fst (splitext filename) ++ "_final.csv").

(** [os.remove(path)] on a file that exists. *)
Definition remove_file (path : string) (fs : FileSystem) : FileSystem :=
  fun p => if String.eqb p path then None else fs p.

(** One turn of the loop over the folder: the state is the text files and
    [processed_count].  [to_csv] is the serializer of the frame, [isdir]
    and [read_excel] are the folder as the loop finds it. *)
Definition process_file (parse : Parser) (to_csv : DataFrame -> string)
    (read_excel : string -> option DataFrame) (isdir : string -> bool)
    (target_dir filename : string) (state : FileSystem * nat) : FileSystem * nat :=
  let input_path := join target_dir filename in
  if skipped isdir input_path filename then state
  else
    let intermediate := intermediate_csv_filename target_dir filename in
    let final := final_output_filename target_dir filename in
    match transform_excel_data parse read_excel input_path with
    | Saved df =>
        let fs := write_file intermediate (to_csv df) (fst state) in
        let fs := find_and_replace_quotes intermediate final fs in
        (remove_file intermediate fs, S (snd state))
    | _ => state
    end.

(** The loop over [os.listdir(target_dir)]. *)
Definition scan (parse : Parser) (to_csv : DataFrame -> string)
    (read_excel : string -> option DataFrame) (isdir : string -> bool)
    (target_dir : string) (listdir : list string) (fs : FileSystem)
    : FileSystem * nat :=
  fold_left (fun state filename =>
               process_file parse to_csv read_excel isdir target_dir filename state)
            listdir (fs, 0).

(** Whether the padded form of the whole number [n] is [width] digits
    that read back as [n]. *)
Definition code_reads_back (width n : nat) : bool :=
  let padded := zero_padded width (astype_str (CInt (Z.of_nat n))) in
  digits_n width padded
  && match field_value padded with
     | Some k => (k =? n)%nat
     | None => false
     end.

(** Whether a turn of the loop counts the entry: it is not skipped and its
    frame is saved. *)
Definition counted (parse : Parser) (read_excel : string -> option DataFrame)
    (isdir : string -> bool) (target_dir filename : string) : bool :=
  negb (skipped isdir (join target_dir filename) filename)
  && match transform_excel_data parse read_excel (join target_dir filename) with
     | Saved _ => true
     | _ => false
     end.

(** Whether the number [n], printed on [width] digits as a field of a
    formatted date, holds no hyphen and reads back as [n]. *)
Definition field_reads_back (width n : nat) : bool :=
  let field := zfill width (str_of_nat n) in
  negb (has_char "-"%char field)
  && match field_value field with
     | Some k => (k =? n)%nat
     | None => false
     end.

(** * Properties *)

(** ** Text *)

Lemma length_append (a b : string) :
  String.length (a ++ b) = String.length a + String.length b.
Proof.
  induction a as [|c a IH]; simpl; [reflexivity | now rewrite IH].
Qed.

Lemma append_empty_r (a : string) : a ++ "" = a.
Proof.
  induction a as [|c a IH]; simpl; [reflexivity | now rewrite IH].
Qed.

Lemma append_assoc (a b c : string) : (a ++ b) ++ c = a ++ b ++ c.
Proof.
  induction a as [|x a IH]; simpl; [reflexivity | now rewrite IH].
Qed.

Lemma zeros_length (n : nat) : String.length (zeros n) = n.
Proof.
  induction n as [|n IH]; simpl; [reflexivity | now rewrite IH].
Qed.

Lemma take_drop (n : nat) (s : string) : take n s ++ drop n s = s.
Proof.
  revert s; induction n as [|n IH]; intros [|c s]; simpl; try reflexivity.
  now rewrite IH.
Qed.

(** *** [zfill] *)

Lemma zfill_long (width : nat) (s : string) :
  width <= String.length s -> zfill width s = s.
Proof.
  intros H. unfold zfill.
  now apply Nat.leb_le in H; rewrite H.
Qed.

Lemma zfill_length (width : nat) (s : string) :
  String.length (zfill width s) = Nat.max width (String.length s).
Proof.
  unfold zfill. destruct (Nat.leb_spec width (String.length s)) as [H|H].
  - lia.
  - destruct s as [|c r].
    + rewrite zeros_length. simpl. lia.
    + destruct (is_sign c); simpl; rewrite length_append, zeros_length; simpl; lia.
Qed.

(** Without a leading sign the zeros go in front. *)
Lemma zfill_unsigned (width : nat) (s : string) :
  match s with String c _ => is_sign c | EmptyString => false end = false ->
  zfill width s = zeros (width - String.length s) ++ s.
Proof.
  intros Hs. unfold zfill.
  destruct (Nat.leb_spec width (String.length s)) as [H|H].
  - replace (width - String.length s) with 0 by lia. reflexivity.
  - destruct s as [|c r]; [now rewrite append_empty_r | now rewrite Hs].
Qed.

(** With a leading sign the zeros go between the sign and the rest. *)
Lemma zfill_signed (width : nat) (c : ascii) (r : string) :
  is_sign c = true ->
  zfill width (String c r) =
  String c (zeros (width - String.length (String c r)) ++ r).
Proof.
  intros Hs. unfold zfill.
  destruct (Nat.leb_spec width (String.length (String c r))) as [H|H].
  - replace (width - String.length (String c r)) with 0 by lia. reflexivity.
  - now rewrite Hs.
Qed.

(** *** [split_first] *)

Lemma split_first_no_sep (sep : ascii) (s : string) :
  has_char sep (split_first sep s) = false.
Proof.
  induction s as [|c r IH]; simpl; [reflexivity|].
  destruct (Ascii.eqb c sep) eqn:E; simpl; [reflexivity | now rewrite E].
Qed.

(** The text is the kept part followed by nothing or by the separator and
    the dropped part. *)
Lemma split_first_spec (sep : ascii) (s : string) :
  s = split_first sep s
  \/ exists rest, s = split_first sep s ++ String sep rest.
Proof.
  induction s as [|c r IH]; simpl; [now left|].
  destruct (Ascii.eqb_spec c sep) as [->|Hne].
  - right. now exists r.
  - destruct IH as [IH|[rest IH]].
    + left. now rewrite <- IH.
    + right. exists rest. simpl. now rewrite <- IH.
Qed.

Lemma split_first_append (sep : ascii) (a rest : string) :
  has_char sep a = false ->
  split_first sep (a ++ String sep rest) = a.
Proof.
  induction a as [|c a IH]; simpl; intros H.
  - now rewrite Ascii.eqb_refl.
  - apply orb_false_iff in H as [H1 H2]. rewrite H1. now rewrite IH.
Qed.

Lemma split_first_id (sep : ascii) (s : string) :
  has_char sep s = false -> split_first sep s = s.
Proof.
  induction s as [|c s IH]; simpl; intros H; [reflexivity|].
  apply orb_false_iff in H as [H1 H2]. rewrite H1. now rewrite IH.
Qed.

(** *** [replace] *)

Lemma replace_from_drop (old new : string) (k : nat) (s : string) :
  replace_from old new k s = replace old new (drop k s).
Proof.
  unfold replace. revert k.
  induction s as [|c r IH]; intros [|k]; simpl; try reflexivity.
  apply IH.
Qed.

(** The scan written with [find]: text without a match is returned as it
    is; otherwise what precedes the leftmost match is copied, the match
    becomes [new], and the scan goes on after the match. *)
Lemma replace_find (old new s : string) :
  old <> "" ->
  replace old new s =
  match find old s with
  | None => s
  | Some i => take i s ++ new ++ replace old new (drop (i + String.length old) s)
  end.
Proof.
  intros Hold. destruct old as [|o old']; [congruence|]. clear Hold.
  induction s as [|c r IH].
  - reflexivity.
  - unfold replace in *. cbn [replace_from find].
    destruct (prefix (String o old') (String c r)) eqn:Hp.
    + cbn [take append String.length Nat.add drop].
      replace (S (String.length old') - 1) with (String.length old') by lia.
      now rewrite replace_from_drop.
    + rewrite IH. destruct (find (String o old') r) as [i|]; reflexivity.
Qed.

(** ** Formatted dates *)

Lemma year_text (y : nat) :
  1677 <= y <= 2262 -> digits_n 4 (zfill 4 (str_of_nat y)) = true.
Proof.
  intros Hy.
  assert (Hall : forallb (fun n => digits_n 4 (zfill 4 (str_of_nat n)))
                   (seq 1677 586) = true) by (vm_compute; reflexivity).
  rewrite forallb_forall in Hall. apply Hall. apply in_seq. lia.
Qed.

Lemma two_digit_text (n : nat) :
  n <= 31 -> digits_n 2 (zfill 2 (str_of_nat n)) = true.
Proof.
  intros Hn.
  assert (Hall : forallb (fun k => digits_n 2 (zfill 2 (str_of_nat k)))
                   (seq 0 32) = true) by (vm_compute; reflexivity).
  rewrite forallb_forall in Hall. apply Hall. apply in_seq. lia.
Qed.

Ltac split_string s :=
  let c := fresh "c" in destruct s as [|c s]; [discriminate|].

Lemma ymd_pattern_fields (y m d : string) :
  digits_n 4 y = true -> digits_n 2 m = true -> digits_n 2 d = true ->
  ymd_pattern (y ++ "-" ++ m ++ "-" ++ d) = true.
Proof.
  unfold digits_n. intros Hy Hm Hd.
  apply andb_true_iff in Hy as [Ly Dy].
  apply andb_true_iff in Hm as [Lm Dm].
  apply andb_true_iff in Hd as [Ld Dd].
  apply Nat.eqb_eq in Ly, Lm, Ld.
  do 4 split_string y. destruct y; [|discriminate].
  do 2 split_string m. destruct m; [|discriminate].
  do 2 split_string d. destruct d; [|discriminate].
  unfold ymd_pattern, digits_n. cbn [append take drop String.length].
  cbn [all_digits] in *. rewrite Dy, Dm, Dd. reflexivity.
Qed.

Lemma days_in_month_le (y m : nat) : days_in_month y m <= 31.
Proof.
  unfold days_in_month.
  do 12 (destruct m as [|m]; [try destruct (is_leap y); lia|]). lia.
Qed.

Lemma in_bounds_fields (ts : Timestamp) :
  in_bounds ts = true ->
  1677 <= year ts <= 2262 /\ 1 <= month ts <= 12 /\ 1 <= day ts <= 31.
Proof.
  unfold in_bounds, calendar_date, date_leb, first_midnight, last_midnight.
  cbn [year month day].
  pose proof (days_in_month_le (year ts) (month ts)) as Hdays.
  intros H.
  repeat match type of H with
         | (_ && _)%bool = true => apply andb_true_iff in H; destruct H as [? H]
         end.
  repeat match goal with
         | Hx : (_ && _)%bool = true |- _ =>
             apply andb_true_iff in Hx; destruct Hx
         | Hx : (_ || _)%bool = true |- _ =>
             apply orb_true_iff in Hx; destruct Hx
         | Hx : (_ <=? _)%nat = true |- _ => apply Nat.leb_le in Hx
         | Hx : (_ <? _)%nat = true |- _ => apply Nat.ltb_lt in Hx
         | Hx : (_ =? _)%nat = true |- _ => apply Nat.eqb_eq in Hx
         end; lia.
Qed.

Lemma strftime_pattern (ts : Timestamp) :
  in_bounds ts = true -> ymd_pattern (strftime ts) = true.
Proof.
  intros H. apply in_bounds_fields in H.
  apply ymd_pattern_fields;
    [apply year_text | apply two_digit_text | apply two_digit_text]; lia.
Qed.

Lemma split_all_no_sep (sep : ascii) (s : string) :
  has_char sep s = false -> split_all sep s = [s].
Proof.
  induction s as [|c s IH]; cbn [has_char split_all]; [reflexivity|].
  intros H. apply orb_false_iff in H as [Hc Hs]. now rewrite Hc, IH.
Qed.

Lemma split_all_field (sep : ascii) (a rest : string) :
  has_char sep a = false ->
  split_all sep (a ++ String sep rest) = a :: split_all sep rest.
Proof.
  induction a as [|c a IH]; cbn [has_char append split_all].
  - now rewrite Ascii.eqb_refl.
  - intros H. apply orb_false_iff in H as [Hc Ha]. now rewrite Hc, IH.
Qed.

Lemma year_reads_back (y : nat) :
  1677 <= y <= 2262 -> field_reads_back 4 y = true.
Proof.
  intros Hy.
  assert (Hall : forallb (field_reads_back 4) (seq 1677 586) = true)
    by (vm_compute; reflexivity).
  rewrite forallb_forall in Hall. apply Hall. apply in_seq. lia.
Qed.

Lemma two_digits_read_back (n : nat) :
  n <= 31 -> field_reads_back 2 n = true.
Proof.
  intros Hn.
  assert (Hall : forallb (field_reads_back 2) (seq 0 32) = true)
    by (vm_compute; reflexivity).
  rewrite forallb_forall in Hall. apply Hall. apply in_seq. lia.
Qed.

Lemma field_reads_back_spec (width n : nat) :
  field_reads_back width n = true ->
  has_char "-"%char (zfill width (str_of_nat n)) = false
  /\ field_value (zfill width (str_of_nat n)) = Some n.
Proof.
  unfold field_reads_back. intros H.
  apply andb_true_iff in H as [Hh Hv]. apply negb_true_iff in Hh.
  split; [exact Hh|].
  destruct (field_value (zfill width (str_of_nat n))) as [k|]; [|discriminate].
  apply Nat.eqb_eq in Hv. now subst.
Qed.

(** The printed date is the date: read field by field it gives the year,
    the month and the day back. *)
Lemma strftime_reads_back (cells : list cell) (ts : Timestamp) :
  in_bounds ts = true -> ymd_parser cells (CStr (strftime ts)) = Some ts.
Proof.
  intros H. apply in_bounds_fields in H as (Hy & Hm & Hd).
  destruct (field_reads_back_spec 4 (year ts)) as [Hy1 Hy2];
    [apply year_reads_back; lia|].
  destruct (field_reads_back_spec 2 (month ts)) as [Hm1 Hm2];
    [apply two_digits_read_back; lia|].
  destruct (field_reads_back_spec 2 (day ts)) as [Hd1 Hd2];
    [apply two_digits_read_back; lia|].
  unfold ymd_parser, strftime. cbn [append].
  rewrite (split_all_field _ _ _ Hy1), (split_all_field _ _ _ Hm1),
    (split_all_no_sep _ _ Hd1).
  rewrite Hy2, Hm2, Hd2. now destruct ts.
Qed.

(** ** Frames *)

Lemma has_column_getitem (col : string) (df : DataFrame) :
  has_column col df = match getitem col df with Some _ => true | None => false end.
Proof.
  unfold has_column. induction df as [|[name cells] rest IH]; simpl; [reflexivity|].
  rewrite String.eqb_sym. destruct (String.eqb name col); simpl; [reflexivity | exact IH].
Qed.

Lemma getitem_setitem (col col' : string) (cells : list cell) (df : DataFrame) :
  getitem col (setitem col' cells df) =
  if String.eqb col col' then Some cells else getitem col df.
Proof.
  induction df as [|[name old] rest IH]; simpl.
  - now rewrite String.eqb_sym.
  - destruct (String.eqb_spec name col') as [->|Hn]; simpl.
    + rewrite (String.eqb_sym col' col). now destruct (String.eqb col col').
    + destruct (String.eqb_spec name col) as [->|Hc]; [|exact IH].
      now destruct (String.eqb_spec col col').
Qed.

Lemma shape_setitem (col : string) (cells old : list cell) (df : DataFrame) :
  getitem col df = Some old ->
  List.length cells = List.length old ->
  shape (setitem col cells df) = shape df.
Proof.
  intros Hget Hlen. induction df as [|[name cs] rest IH]; simpl in *; [discriminate|].
  destruct (String.eqb name col); simpl.
  - injection Hget as ->. now rewrite Hlen.
  - now rewrite IH.
Qed.

Lemma get_cell_has_column (col : string) (i : nat) (df : DataFrame) (c : cell) :
  get_cell col i df = Some c -> has_column col df = true.
Proof.
  unfold get_cell. rewrite has_column_getitem.
  now destruct (getitem col df).
Qed.

Lemma get_cell_getitem (col : string) (i : nat) (df : DataFrame) (c : cell) :
  get_cell col i df = Some c ->
  exists cells, getitem col df = Some cells /\ nth_error cells i = Some c.
Proof.
  unfold get_cell. destruct (getitem col df) as [cells|]; [|discriminate].
  intros H. now exists cells.
Qed.

Lemma for_each_total {A : Type} (body : A -> DataFrame -> option DataFrame)
    (pure : A -> DataFrame -> DataFrame) (cols : list A) (df : DataFrame) :
  (forall a d, body a d = Some (pure a d)) ->
  for_each body cols df = Some (fold_left (fun d a => pure a d) cols df).
Proof.
  intros H. revert df. induction cols as [|a cols IH]; intros df; simpl.
  - reflexivity.
  - rewrite H. simpl. apply IH.
Qed.

(** ** The rule engine *)

Section Engine.

Variable parse : Parser.

Lemma date_column_cells (cells : list cell) :
  dt_strftime (to_datetime parse cells) = map (date_cell parse cells) cells.
Proof.
  unfold dt_strftime, to_datetime. now rewrite map_map.
Qed.

(** Every rule returns: no lookup is made on a missing column. *)
Lemma apply_rule_result (r : Rule) (df : DataFrame) :
  apply_rule parse r df = Some (rule_result parse r df).
Proof.
  unfold rule_result.
  destruct r; simpl;
    unfold quote_wrap, custom_wrap, date_format, zero_pad, strip_commas, masked_assign;
    rewrite has_column_getitem;
    destruct (getitem col df) as [cells|]; simpl; try reflexivity.
  now rewrite date_column_cells.
Qed.

Lemma apply_rules_result (rules : list Rule) (df : DataFrame) :
  apply_rules parse rules df = Some (rules_result parse rules df).
Proof.
  apply for_each_total, apply_rule_result.
Qed.

Lemma get_cell_rule_result (r : Rule) (col : string) (i : nat) (df : DataFrame) :
  get_cell col i (rule_result parse r df) =
  if String.eqb col (target r)
  then match getitem col df with
       | Some cells => option_map (rule_cell parse r cells) (nth_error cells i)
       | None => None
       end
  else get_cell col i df.
Proof.
  unfold rule_result, get_cell.
  destruct (String.eqb_spec col (target r)) as [->|Hne].
  - destruct (getitem (target r) df) as [cells|] eqn:Hg.
    + rewrite getitem_setitem, String.eqb_refl. apply nth_error_map.
    + now rewrite Hg.
  - destruct (getitem (target r) df) as [cells|]; [|reflexivity].
    rewrite getitem_setitem.
    now destruct (String.eqb_spec col (target r)).
Qed.

Lemma rule_cell_null (r : Rule) (cells : list cell) :
  rule_cell parse r cells CNull = CNull.
Proof.
  now destruct r.
Qed.

Lemma rule_result_null (r : Rule) (df : DataFrame) (col : string) (i : nat) :
  get_cell col i df = Some CNull ->
  get_cell col i (rule_result parse r df) = Some CNull.
Proof.
  intros H. rewrite get_cell_rule_result.
  destruct (String.eqb col (target r)); [|exact H].
  apply get_cell_getitem in H as (cells & -> & ->).
  simpl. now rewrite rule_cell_null.
Qed.

Lemma rules_result_null (rules : list Rule) (df : DataFrame) (col : string) (i : nat) :
  get_cell col i df = Some CNull ->
  get_cell col i (rules_result parse rules df) = Some CNull.
Proof.
  unfold rules_result. revert df.
  induction rules as [|r rules IH]; intros df H; simpl; [exact H|].
  apply IH. now apply rule_result_null.
Qed.

Lemma rule_result_shape (r : Rule) (df : DataFrame) :
  shape (rule_result parse r df) = shape df.
Proof.
  unfold rule_result. destruct (getitem (target r) df) as [cells|] eqn:Hg; [|reflexivity].
  apply (shape_setitem _ _ cells); [exact Hg | apply length_map].
Qed.

Lemma rules_result_shape (rules : list Rule) (df : DataFrame) :
  shape (rules_result parse rules df) = shape df.
Proof.
  unfold rules_result. revert df.
  induction rules as [|r rules IH]; intros df; simpl; [reflexivity|].
  rewrite IH. apply rule_result_shape.
Qed.

Ltac run_loop body rule :=
  rewrite (for_each_total body (fun a => rule_result parse (rule a)))
    by (intros; apply (apply_rule_result (rule _)));
  cbn [bind].

Ltac run_step body rule :=
  match goal with
  | |- context [body ?d] =>
      change (body d) with (apply_rule parse rule d);
      rewrite (apply_rule_result rule d); cbn [bind]
  end.

(** The two functions are their rule sets, run in order, and they return. *)
Lemma enrollment_result (df : DataFrame) :
  apply_enrollment_transforms parse df = Some (rules_result parse enrollment_rules df).
Proof.
  unfold apply_enrollment_transforms.
  run_loop quote_wrap QuoteWrap.
  run_step (custom_wrap Enrollment.triple_quote_col) (CustomWrap Enrollment.triple_quote_col).
  run_loop (date_format parse) DateFormat.
  run_loop (fun cl : string * nat => zero_pad (fst cl) (snd cl))
           (fun cl : string * nat => ZeroPad (fst cl) (snd cl)).
  run_loop strip_commas StripSeparator.
  cbv [rules_result enrollment_rules
       Enrollment.double_quote_cols Enrollment.triple_quote_col Enrollment.date_cols
       Enrollment.padding_cols Enrollment.comma_removal_cols
       fold_left map app fst snd].
  reflexivity.
Qed.

Lemma usage_result (df : DataFrame) :
  apply_usage_transforms parse df = Some (rules_result parse usage_rules df).
Proof.
  unfold apply_usage_transforms.
  run_loop quote_wrap QuoteWrap.
  run_loop (date_format parse) DateFormat.
  run_step (zero_pad "KY_MTR_BILL_GRP" 2) (ZeroPad "KY_MTR_BILL_GRP" 2).
  run_step (zero_pad "CITY_GATE" 4) (ZeroPad "CITY_GATE" 4).
  run_step (zero_pad "CD_BILL_PRCS_INSTR" 4) (ZeroPad "CD_BILL_PRCS_INSTR" 4).
  run_step (zero_pad "CD_SERV_SUPP" 4) (ZeroPad "CD_SERV_SUPP" 4).
  run_loop strip_commas StripSeparator.
  cbv [rules_result usage_rules
       Usage.double_quote_cols Usage.date_cols Usage.comma_removal_cols
       fold_left map app fst snd].
  reflexivity.
Qed.

Lemma coerce_datetime_in_bounds (cells : list cell) (c : cell) (ts : Timestamp) :
  coerce_datetime parse cells c = Some ts -> in_bounds ts = true.
Proof.
  unfold coerce_datetime.
  destruct (parsed_value parse cells c) as [t|]; [|discriminate].
  destruct (in_bounds t) eqn:Hb; [|discriminate].
  now intros [= <-].
Qed.

End Engine.

(** ** The text rules on a cell *)

Lemma text_cell_notna (f : string -> string) (c : cell) :
  notna c = true -> text_cell f c = CStr (f (astype_str c)).
Proof.
  intros H. unfold text_cell. now rewrite H.
Qed.

(** A rule applied to a frame that has the cell: the rule returns, and the
    cell of its target column is rewritten by [rule_cell]. *)
Lemma apply_rule_cell (parse : Parser) (r : Rule) (i : nat) (df : DataFrame)
    (cells : list cell) (c : cell) :
  getitem (target r) df = Some cells ->
  nth_error cells i = Some c ->
  exists out,
    apply_rule parse r df = Some out
    /\ get_cell (target r) i out = Some (rule_cell parse r cells c).
Proof.
  intros Hg Hc. exists (rule_result parse r df).
  split; [apply apply_rule_result|].
  rewrite get_cell_rule_result, String.eqb_refl, Hg, Hc. reflexivity.
Qed.

Lemma append_Q_neq (t : string) : Q ++ Q ++ t ++ Q ++ Q <> Q ++ t ++ Q.
Proof.
  intros E. apply (f_equal String.length) in E.
  rewrite !length_append in E. simpl in E. lia.
Qed.

Lemma some_text_inj (a b : string) : Some (CStr a) = Some (CStr b) -> a = b.
Proof.
  now intros [= ->].
Qed.

Section Claims.

Variable parse : Parser.

(** C1. A rule of either rule set whose target column is not among the
    columns of the frame returns, with the frame as it was: the rule is
    skipped, no column is looked up and no error is raised. *)
Theorem rule_on_missing_column_is_noop (r : Rule) (df : DataFrame) :
  In r (enrollment_rules ++ usage_rules) ->
  has_column (target r) df = false ->
  apply_rule parse r df = Some df.
Proof.
  intros _ H. rewrite apply_rule_result. unfold rule_result.
  rewrite has_column_getitem in H.
  now destruct (getitem (target r) df).
Qed.

(** C2. For every rule type and every frame, the rule returns and a cell
    that was null before is null after; the same holds through the whole
    Enrollment and Usage functions. *)
Theorem null_cells_stay_null (r : Rule) (df : DataFrame) (col : string) (i : nat) :
  get_cell col i df = Some CNull ->
  (exists out, apply_rule parse r df = Some out
               /\ get_cell col i out = Some CNull)
  /\ (exists out, apply_enrollment_transforms parse df = Some out
                  /\ get_cell col i out = Some CNull)
  /\ (exists out, apply_usage_transforms parse df = Some out
                  /\ get_cell col i out = Some CNull).
Proof.
  intros H. repeat split.
  - exists (rule_result parse r df).
    split; [apply apply_rule_result | now apply rule_result_null].
  - exists (rules_result parse enrollment_rules df).
    split; [apply enrollment_result | now apply rules_result_null].
  - exists (rules_result parse usage_rules df).
    split; [apply usage_result | now apply rules_result_null].
Qed.

(** C10. Both functions return and keep the shape of the frame: the same
    column names in the same order, and the same number of rows in each
    column; so does every single rule. *)
Theorem transforms_preserve_shape (df : DataFrame) :
  (exists out, apply_enrollment_transforms parse df = Some out
               /\ shape out = shape df)
  /\ (exists out, apply_usage_transforms parse df = Some out
                  /\ shape out = shape df)
  /\ (forall r, exists out, apply_rule parse r df = Some out
                            /\ shape out = shape df).
Proof.
  repeat split.
  - exists (rules_result parse enrollment_rules df).
    split; [apply enrollment_result | apply rules_result_shape].
  - exists (rules_result parse usage_rules df).
    split; [apply usage_result | apply rules_result_shape].
  - intros r. exists (rule_result parse r df).
    split; [apply apply_rule_result | apply rule_result_shape].
Qed.

(** C4, amended.  The date rule returns on every cell.  A value read as a
    calendar date whose midnight a nanosecond timestamp can hold (22
    September 1677 to 11 April 2262) becomes that date printed as four
    digits, hyphen, two digits, hyphen, two digits, a text that reads back
    as the same date.  A value that is not read as a date, and also a date
    outside that range, becomes null.  With a parser that reads [2024-3-5]
    as 5 March 2024, that cell becomes [2024-03-05]. *)
Theorem date_format_reformats_or_nulls (col : string) (df : DataFrame)
    (cells : list cell) (i : nat) (c : cell) :
  getitem col df = Some cells ->
  nth_error cells i = Some c ->
  exists out cell_out,
    date_format parse col df = Some out
    /\ get_cell col i out = Some cell_out
    /\ (forall ts, parsed_value parse cells c = Some ts ->
        in_bounds ts = true ->
        cell_out = CStr (strftime ts)
        /\ ymd_pattern (strftime ts) = true
        /\ ymd_parser cells (CStr (strftime ts)) = Some ts)
    /\ (forall ts, parsed_value parse cells c = Some ts ->
        in_bounds ts = false ->
        cell_out = CNull)
    /\ (parsed_value parse cells c = None -> cell_out = CNull)
    /\ (c = CStr "2024-3-5" ->
        parse cells c = Some (mkTimestamp 2024 3 5) ->
        cell_out = CStr "2024-03-05").
Proof.
  intros Hg Hc.
  destruct (apply_rule_cell parse (DateFormat col) i df cells c Hg Hc)
    as (out & Hout & Hcell).
  exists out, (date_cell parse cells c).
  split; [exact Hout|]. split; [exact Hcell|].
  unfold date_cell, coerce_datetime. split; [|split; [|split]].
  - intros ts Hts Hb. rewrite Hts, Hb. split; [reflexivity|].
    split; [now apply strftime_pattern | now apply strftime_reads_back].
  - intros ts Hts Hb. now rewrite Hts, Hb.
  - intros Hnone. now rewrite Hnone.
  - intros -> Hp. cbn [parsed_value]. now rewrite Hp.
Qed.

(** C8. End to end through the Enrollment function, with a parser that
    reads [2023-01-15] as 15 January 2023: the row with customer name
    [Jane Doe], effective date [2023-01-15] and city gate 7 comes out with
    the name between double quotes, the date unchanged and the city gate
    [0007]. *)
Theorem enrollment_end_to_end :
  parse [CStr "2023-01-15"] (CStr "2023-01-15") = Some (mkTimestamp 2023 1 15) ->
  apply_enrollment_transforms parse jane_row = Some jane_row_done.
Proof.
  intros H. rewrite enrollment_result. f_equal.
  vm_compute. rewrite H. reflexivity.
Qed.

(** C9. The tests on the lowered base name are ordered, Enrollment first.
    A name holding [enrollment], also one that holds [usage] as well, gets
    the Enrollment function alone, whose result is saved; the Usage
    function runs exactly when the name holds [usage] and not
    [enrollment]; a name with neither is skipped. *)
Theorem enrollment_is_tested_first
    (read_excel : string -> option DataFrame) (input_file : string) (df : DataFrame) :
  read_excel input_file = Some df ->
  let name := lower (basename input_file) in
  (contains "enrollment" name = true ->
   file_type name = EnrollmentFile
   /\ exists out, apply_enrollment_transforms parse df = Some out
                  /\ transform_excel_data parse read_excel input_file = Saved out)
  /\ (contains "enrollment" name = false -> contains "usage" name = true ->
      file_type name = UsageFile
      /\ exists out, apply_usage_transforms parse df = Some out
                     /\ transform_excel_data parse read_excel input_file = Saved out)
  /\ (file_type name = UsageFile <->
      contains "usage" name = true /\ contains "enrollment" name = false)
  /\ (contains "enrollment" name = false -> contains "usage" name = false ->
      file_type name = UnknownFile
      /\ transform_excel_data parse read_excel input_file = Skipped).
Proof.
  intros Hread name.
  unfold transform_excel_data, file_type. rewrite Hread. fold name.
  rewrite enrollment_result, usage_result. cbn [caught].
  destruct (contains "enrollment" name), (contains "usage" name);
    repeat split; intros; try discriminate; try reflexivity; eauto;
    repeat match goal with H : _ /\ _ |- _ => destruct H end; discriminate.
Qed.

End Claims.

(** C6. The quote rule is a plain concatenation: a non-null cell with text
    [v] becomes a double quote, [v], a double quote, whatever [v] holds.
    Applied twice it yields two double quotes on each side, which is never
    the result of applying it once; on [a] that is two quotes, [a], two
    quotes. *)
Theorem quote_wrap_is_plain_concatenation (col : string) (df : DataFrame)
    (i : nat) (c : cell) :
  get_cell col i df = Some c ->
  notna c = true ->
  (exists once twice,
     quote_wrap col df = Some once
     /\ quote_wrap col once = Some twice
     /\ get_cell col i once = Some (CStr (Q ++ astype_str c ++ Q))
     /\ get_cell col i twice = Some (CStr (Q ++ Q ++ astype_str c ++ Q ++ Q))
     /\ get_cell col i twice <> get_cell col i once)
  /\ quote_wrap "CUSTOMER_NAME" [("CUSTOMER_NAME", [CStr "a"])]
     = Some [("CUSTOMER_NAME", [CStr (Q ++ "a" ++ Q)])]
  /\ quote_wrap "CUSTOMER_NAME" [("CUSTOMER_NAME", [CStr (Q ++ "a" ++ Q)])]
     = Some [("CUSTOMER_NAME", [CStr (Q ++ Q ++ "a" ++ Q ++ Q)])].
Proof.
  intros Hc Hn. split; [|split; reflexivity].
  apply get_cell_getitem in Hc as (cells & Hg & Hi).
  destruct (apply_rule_cell ymd_parser (QuoteWrap col) i df cells c Hg Hi)
    as (once & Honce & Hcell1).
  simpl in Honce, Hcell1. rewrite text_cell_notna in Hcell1 by exact Hn.
  pose proof Hcell1 as Hc1.
  apply get_cell_getitem in Hc1 as (cells1 & Hg1 & Hi1).
  destruct (apply_rule_cell ymd_parser (QuoteWrap col) i once cells1 _ Hg1 Hi1)
    as (twice & Htwice & Hcell2).
  simpl in Htwice, Hcell2. rewrite text_cell_notna in Hcell2 by reflexivity.
  exists once, twice. repeat split; try assumption.
  - rewrite Hcell2. unfold double_quoted. cbn [astype_str].
    now rewrite !append_assoc.
  - rewrite Hcell1, Hcell2. unfold double_quoted. cbn [astype_str].
    rewrite !append_assoc. intros E. apply (append_Q_neq (astype_str c)).
    now apply some_text_inj.
Qed.

(** C7, amended.  A non-null cell with text [v] under the custom rule
    becomes the five-part text double quote, single quote, [v], single
    quote, double quote.  For the seven characters of [Acme Co] this is a
    text of 11 characters. *)
Theorem custom_wrap_is_five_part_concatenation (col : string) (df : DataFrame)
    (i : nat) (c : cell) :
  get_cell col i df = Some c ->
  notna c = true ->
  (exists out,
     custom_wrap col df = Some out
     /\ get_cell col i out
        = Some (CStr (String dquote (String squote
                   (astype_str c ++ String squote (String dquote EmptyString))))))
  /\ custom_wrap Enrollment.triple_quote_col
       [(Enrollment.triple_quote_col, [CStr "Acme Co"])]
     = Some [(Enrollment.triple_quote_col, [CStr (String dquote ("'Acme Co'" ++ Q))])]
  /\ String.length (String dquote ("'Acme Co'" ++ Q)) = 11.
Proof.
  intros Hc Hn. split; [|split; reflexivity].
  apply get_cell_getitem in Hc as (cells & Hg & Hi).
  destruct (apply_rule_cell ymd_parser (CustomWrap col) i df cells c Hg Hi)
    as (out & Hout & Hcell).
  simpl in Hout, Hcell. rewrite text_cell_notna in Hcell by exact Hn.
  now exists out.
Qed.

(** C3, amended.  For a non-null cell under the padding rule, the text is
    cut at its first dot and the kept part is filled to [width] characters:
    a kept part of at least [width] characters is left as it is, a shorter
    one receives zeros in front, except that when it starts with a plus or
    minus sign the zeros are put right after the sign.  With [width] 4, [7]
    gives [0007], [12.0] gives [0012] and [12345] is unchanged. *)
Theorem zero_pad_truncates_then_fills (col : string) (width : nat) (df : DataFrame)
    (i : nat) (c : cell) :
  get_cell col i df = Some c ->
  notna c = true ->
  let text := astype_str c in
  let kept := split_first "."%char text in
  (exists out padded,
    zero_pad col width df = Some out
    /\ get_cell col i out = Some (CStr padded)
    /\ (text = kept \/ exists rest, text = kept ++ String "."%char rest)
    /\ has_char "."%char kept = false
    /\ String.length padded = Nat.max width (String.length kept)
    /\ (width <= String.length kept -> padded = kept)
    /\ (match kept with String s _ => is_sign s | EmptyString => false end = false ->
        padded = zeros (width - String.length kept) ++ kept)
    /\ (forall s r, kept = String s r -> is_sign s = true ->
        padded = String s (zeros (width - String.length kept) ++ r)))
  /\ zero_pad "CITY_GATE" 4 [("CITY_GATE", [CStr "7"; CStr "12.0"; CStr "12345"])]
     = Some [("CITY_GATE", [CStr "0007"; CStr "0012"; CStr "12345"])].
Proof.
  intros Hc Hn text kept. split; [|reflexivity].
  apply get_cell_getitem in Hc as (cells & Hg & Hi).
  destruct (apply_rule_cell ymd_parser (ZeroPad col width) i df cells c Hg Hi)
    as (out & Hout & Hcell).
  simpl in Hout, Hcell. rewrite text_cell_notna in Hcell by exact Hn.
  exists out, (zfill width kept).
  split; [exact Hout|]. split; [exact Hcell|].
  split; [apply split_first_spec|].
  split; [apply split_first_no_sep|].
  split; [apply zfill_length|].
  split; [apply zfill_long|].
  split; [apply zfill_unsigned|].
  intros s r -> Hs. now apply zfill_signed.
Qed.

(** ** The cleanup pass *)

(** C5. The cleanup is a substitution on the bare text: text without three
    double quotes in a row is returned as it is; otherwise what precedes
    the leftmost such run of three is copied, the three become one, and the
    same is done on what follows them.  So [He said] followed by three
    quotes, [Hi] and three quotes gives [He said], one quote, [Hi], one
    quote, and six quotes give two.  The function writes exactly this text
    to its output file. *)
Theorem cleanup_collapses_triple_quotes (content : string) :
  cleanup content =
  match find QQQ content with
  | None => content
  | Some i => take i content ++ Q ++ cleanup (drop (i + 3) content)
  end
  /\ cleanup ("He said " ++ QQQ ++ "Hi" ++ QQQ) = "He said " ++ Q ++ "Hi" ++ Q
  /\ cleanup (QQQ ++ QQQ) = Q ++ Q
  /\ forall input_file output_file fs,
       fs input_file = Some content ->
       find_and_replace_quotes input_file output_file fs output_file
       = Some (cleanup content).
Proof.
  split; [|split; [reflexivity | split; [reflexivity|]]].
  - unfold cleanup. now apply replace_find.
  - intros input_file output_file fs H.
    unfold find_and_replace_quotes, write_file.
    now rewrite H, String.eqb_refl.
Qed.

(** One pass over the text: five quotes in a row give three. *)
Remark cleanup_is_one_pass : cleanup (QQQ ++ Q ++ Q) = QQQ.
Proof. reflexivity. Qed.

(** ** The claims on concrete frames *)

Lemma rule_on_missing_column_is_noop_witness :
  has_column "CITY_GATE" [("CUSTOMER_NAME", [CStr "Jane Doe"])] = false
  /\ apply_rule ymd_parser (ZeroPad "CITY_GATE" 4) [("CUSTOMER_NAME", [CStr "Jane Doe"])]
     = Some [("CUSTOMER_NAME", [CStr "Jane Doe"])].
Proof.
  split; [reflexivity|].
  apply (rule_on_missing_column_is_noop ymd_parser (ZeroPad "CITY_GATE" 4)).
  - unfold enrollment_rules. simpl. do 10 right. left. reflexivity.
  - reflexivity.
Defined.

Lemma null_cells_stay_null_witness :
  exists out,
    apply_enrollment_transforms ymd_parser [("CITY_GATE", [CNull; CInt 7])] = Some out
    /\ get_cell "CITY_GATE" 0 out = Some CNull.
Proof.
  exact (proj1 (proj2 (null_cells_stay_null ymd_parser (ZeroPad "CITY_GATE" 4)
                         [("CITY_GATE", [CNull; CInt 7])] "CITY_GATE" 0 eq_refl))).
Defined.

Lemma date_format_reformats_or_nulls_witness :
  exists out cell_out,
    date_format ymd_parser "DT_EFF" [("DT_EFF", [CStr "2024-3-5"; CStr "N/A"])] = Some out
    /\ get_cell "DT_EFF" 0 out = Some cell_out
    /\ cell_out = CStr "2024-03-05".
Proof.
  destruct (date_format_reformats_or_nulls ymd_parser "DT_EFF"
              [("DT_EFF", [CStr "2024-3-5"; CStr "N/A"])]
              [CStr "2024-3-5"; CStr "N/A"] 0 (CStr "2024-3-5") eq_refl eq_refl)
    as (out & cell_out & Hout & Hcell & _ & _ & _ & Hex).
  exists out, cell_out. repeat split; [exact Hout | exact Hcell |].
  apply Hex; reflexivity.
Defined.

(** C4 as stated fails on a date that a nanosecond timestamp cannot hold:
    1 January 1500 is read as a calendar date, and the cell becomes null
    instead of a formatted date. *)
Lemma date_format_nulls_a_date_out_of_range :
  ~ (forall (parse : Parser) col df cells i c ts,
       getitem col df = Some cells ->
       nth_error cells i = Some c ->
       parsed_value parse cells c = Some ts ->
       calendar_date ts = true ->
       exists out text,
         date_format parse col df = Some out
         /\ get_cell col i out = Some (CStr text)
         /\ ymd_pattern text = true).
Proof.
  intros H.
  destruct (H ymd_parser "DT_EFF" [("DT_EFF", [CStr "1500-01-01"])]
              [CStr "1500-01-01"] 0 (CStr "1500-01-01") (mkTimestamp 1500 1 1)
              eq_refl eq_refl eq_refl eq_refl)
    as (out & text & Hout & Hcell & _).
  vm_compute in Hout. injection Hout as <-.
  vm_compute in Hcell. discriminate.
Qed.

Lemma enrollment_end_to_end_witness :
  apply_enrollment_transforms ymd_parser jane_row = Some jane_row_done.
Proof.
  apply (enrollment_end_to_end ymd_parser). reflexivity.
Defined.

Lemma enrollment_is_tested_first_witness :
  contains "enrollment" (lower (basename "in/Usage_ENROLLMENT_2024.xlsx")) = true
  /\ contains "usage" (lower (basename "in/Usage_ENROLLMENT_2024.xlsx")) = true
  /\ exists out,
       apply_enrollment_transforms ymd_parser jane_row = Some out
       /\ transform_excel_data ymd_parser (fun _ => Some jane_row)
            "in/Usage_ENROLLMENT_2024.xlsx" = Saved out.
Proof.
  split; [reflexivity|]. split; [reflexivity|].
  exact (proj2 (proj1 (enrollment_is_tested_first ymd_parser (fun _ => Some jane_row)
                         "in/Usage_ENROLLMENT_2024.xlsx" jane_row eq_refl) eq_refl)).
Defined.

Lemma quote_wrap_is_plain_concatenation_witness :
  exists once twice,
    quote_wrap "CUSTOMER_NAME" jane_row = Some once
    /\ quote_wrap "CUSTOMER_NAME" once = Some twice
    /\ get_cell "CUSTOMER_NAME" 0 once = Some (CStr (Q ++ "Jane Doe" ++ Q))
    /\ get_cell "CUSTOMER_NAME" 0 twice = Some (CStr (Q ++ Q ++ "Jane Doe" ++ Q ++ Q))
    /\ get_cell "CUSTOMER_NAME" 0 twice <> get_cell "CUSTOMER_NAME" 0 once.
Proof.
  exact (proj1 (quote_wrap_is_plain_concatenation "CUSTOMER_NAME" jane_row 0
                  (CStr "Jane Doe") eq_refl eq_refl)).
Defined.

Lemma custom_wrap_is_five_part_concatenation_witness :
  exists out,
    custom_wrap "TX_SERV_SUPP" [("TX_SERV_SUPP", [CInt 12])] = Some out
    /\ get_cell "TX_SERV_SUPP" 0 out
       = Some (CStr (String dquote (String squote
                  ("12" ++ String squote (String dquote EmptyString))))).
Proof.
  exact (proj1 (custom_wrap_is_five_part_concatenation "TX_SERV_SUPP"
                  [("TX_SERV_SUPP", [CInt 12])] 0 (CInt 12) eq_refl eq_refl)).
Defined.

Lemma zero_pad_truncates_then_fills_witness :
  exists out padded,
    zero_pad "CITY_GATE" 4 [("CITY_GATE", [CFloat "-7.0"])] = Some out
    /\ get_cell "CITY_GATE" 0 out = Some (CStr padded)
    /\ padded = "-007".
Proof.
  destruct (zero_pad_truncates_then_fills "CITY_GATE" 4 [("CITY_GATE", [CFloat "-7.0"])]
              0 (CFloat "-7.0") eq_refl eq_refl)
    as [(out & padded & Hout & Hcell & _ & _ & _ & _ & _ & Hsign) _].
  exists out, padded. repeat split; [exact Hout | exact Hcell |].
  exact (Hsign "-"%char "7" eq_refl eq_refl).
Defined.

(** C3 as stated fails on a signed value: the city gate -7 padded to 4 is
    the minus sign followed by 007, not two zeros followed by -7. *)
Lemma zero_pad_is_not_always_a_left_pad :
  ~ (forall col width df i c,
       get_cell col i df = Some c ->
       notna c = true ->
       let kept := split_first "."%char (astype_str c) in
       exists out,
         zero_pad col width df = Some out
         /\ get_cell col i out
            = Some (CStr (zeros (width - String.length kept) ++ kept))).
Proof.
  intros H.
  destruct (H "CITY_GATE" 4 [("CITY_GATE", [CInt (-7)])] 0 (CInt (-7)) eq_refl eq_refl)
    as (out & Hout & Hcell).
  vm_compute in Hout. injection Hout as <-.
  vm_compute in Hcell. discriminate.
Qed.

(** C7 as stated fails on its own example: the wrapped [Acme Co] has 11
    characters, not 10. *)
Lemma acme_wrapped_is_not_ten_characters :
  ~ (exists out text,
       custom_wrap "TX_SERV_SUPP" [("TX_SERV_SUPP", [CStr "Acme Co"])] = Some out
       /\ get_cell "TX_SERV_SUPP" 0 out = Some (CStr text)
       /\ String.length text = 10).
Proof.
  intros (out & text & Hout & Hcell & Hlen).
  vm_compute in Hout. injection Hout as <-.
  vm_compute in Hcell. injection Hcell as <-.
  discriminate.
Qed.

(** * Further properties *)

(** ** Rules and columns *)

Lemma setitem_setitem (col : string) (a b : list cell) (df : DataFrame) :
  setitem col a (setitem col b df) = setitem col a df.
Proof.
  induction df as [|[name old] rest IH]; simpl.
  - now rewrite String.eqb_refl.
  - destruct (String.eqb name col) eqn:E; simpl; rewrite E; [reflexivity|].
    now rewrite IH.
Qed.



Lemma text_cell_idempotent (f : string -> string) (c : cell) :
  (forall x, f (f x) = f x) ->
  text_cell f (text_cell f c) = text_cell f c.
Proof.
  intros Hf. destruct c; simpl; unfold text_cell; simpl; now rewrite ?Hf.
Qed.

Lemma has_char_append (ch : ascii) (a b : string) :
  has_char ch (a ++ b) = has_char ch a || has_char ch b.
Proof.
  induction a as [|c a IH]; simpl; [reflexivity|].
  now rewrite IH, orb_assoc.
Qed.

Lemma has_char_zeros (ch : ascii) (n : nat) :
  ch <> "0"%char -> has_char ch (zeros n) = false.
Proof.
  intros H. induction n as [|n IH]; [reflexivity|].
  cbn [zeros has_char]. rewrite IH, orb_false_r.
  apply Ascii.eqb_neq. congruence.
Qed.

Lemma has_char_zfill (ch : ascii) (width : nat) (s : string) :
  ch <> "0"%char -> has_char ch s = false -> has_char ch (zfill width s) = false.
Proof.
  intros H0 Hs. unfold zfill.
  destruct (width <=? String.length s)%nat; [exact Hs|].
  destruct s as [|c r]; [now apply has_char_zeros|].
  simpl in Hs. apply orb_false_iff in Hs as [Hc Hr].
  destruct (is_sign c); simpl; rewrite ?has_char_append, ?has_char_zeros by exact H0;
    simpl; now rewrite Hc, Hr.
Qed.

Lemma zero_padded_idempotent (width : nat) (x : string) :
  zero_padded width (zero_padded width x) = zero_padded width x.
Proof.
  unfold zero_padded.
  rewrite split_first_id.
  - apply zfill_long. rewrite zfill_length. lia.
  - apply has_char_zfill; [discriminate | apply split_first_no_sep].
Qed.

Lemma replace_one_char (ch : ascii) (s : string) :
  replace (String ch EmptyString) EmptyString s = without ch s.
Proof.
  unfold replace. induction s as [|c r IH]; [reflexivity|].
  cbn [replace_from prefix String.length Nat.sub without].
  rewrite IH. destruct (ascii_dec ch c) as [->|Hne].
  - rewrite Ascii.eqb_refl. now destruct r.
  - assert (E : Ascii.eqb c ch = false) by (apply Ascii.eqb_neq; congruence).
    now rewrite E.
Qed.

Lemma without_has_char (ch : ascii) (s : string) :
  has_char ch (without ch s) = false.
Proof.
  induction s as [|c r IH]; simpl; [reflexivity|].
  destruct (Ascii.eqb c ch) eqn:E; simpl; [exact IH | now rewrite E, IH].
Qed.

Lemma without_id (ch : ascii) (s : string) :
  has_char ch s = false -> without ch s = s.
Proof.
  induction s as [|c r IH]; simpl; [reflexivity|].
  intros H. apply orb_false_iff in H as [Hc Hr]. now rewrite Hc, IH.
Qed.

Lemma comma_stripped_idempotent (x : string) :
  comma_stripped (comma_stripped x) = comma_stripped x.
Proof.
  unfold comma_stripped. rewrite !replace_one_char.
  apply without_id, without_has_char.
Qed.

Section Columns.

Variable parse : Parser.

Lemma getitem_rule_result (r : Rule) (col : string) (df : DataFrame) :
  getitem col (rule_result parse r df) =
  if String.eqb col (target r)
  then option_map (fun cells => map (rule_cell parse r cells) cells) (getitem col df)
  else getitem col df.
Proof.
  unfold rule_result.
  destruct (String.eqb_spec col (target r)) as [->|Hne].
  - destruct (getitem (target r) df) as [cells|] eqn:Hg; simpl.
    + now rewrite getitem_setitem, String.eqb_refl.
    + exact Hg.
  - destruct (getitem (target r) df) as [cells|]; [|reflexivity].
    rewrite getitem_setitem. now destruct (String.eqb_spec col (target r)).
Qed.

Lemma rules_result_untouched (rules : list Rule) (col : string) (df : DataFrame) :
  ~ In col (map target rules) ->
  getitem col (rules_result parse rules df) = getitem col df.
Proof.
  unfold rules_result. revert df.
  induction rules as [|r rules IH]; intros df Hnot; simpl; [reflexivity|].
  simpl in Hnot. rewrite IH by tauto.
  rewrite getitem_rule_result.
  destruct (String.eqb_spec col (target r)) as [->|]; [tauto | reflexivity].
Qed.

Lemma rules_result_target (rules : list Rule) (r : Rule) (df : DataFrame)
    (cells : list cell) :
  NoDup (map target rules) ->
  In r rules ->
  getitem (target r) df = Some cells ->
  getitem (target r) (rules_result parse rules df)
  = Some (map (rule_cell parse r cells) cells).
Proof.
  revert df. induction rules as [|r0 rules IH]; intros df Hnd Hin Hg; [contradiction|].
  simpl in Hnd. apply NoDup_cons_iff in Hnd as [Hfresh Hnd].
  change (rules_result parse (r0 :: rules) df)
    with (rules_result parse rules (rule_result parse r0 df)).
  destruct Hin as [->|Hin].
  - rewrite rules_result_untouched by exact Hfresh.
    now rewrite getitem_rule_result, String.eqb_refl, Hg.
  - apply IH; [exact Hnd | exact Hin |].
    rewrite getitem_rule_result.
    destruct (String.eqb_spec (target r) (target r0)) as [E|]; [|exact Hg].
    exfalso. apply Hfresh. rewrite <- E. now apply in_map.
Qed.

Lemma rule_result_idempotent (r : Rule) (df : DataFrame) :
  (forall cells cells' c,
     rule_cell parse r cells' (rule_cell parse r cells c) = rule_cell parse r cells c) ->
  rule_result parse r (rule_result parse r df) = rule_result parse r df.
Proof.
  intros Hidem. unfold rule_result at 1.
  rewrite getitem_rule_result, String.eqb_refl.
  unfold rule_result.
  destruct (getitem (target r) df) as [cells|] eqn:Hg; simpl; [|now rewrite ?Hg].
  rewrite setitem_setitem. f_equal.
  rewrite map_map. apply map_ext. intros c. apply Hidem.
Qed.


Lemma enrollment_targets_distinct : NoDup (map target enrollment_rules).
Proof.
  apply (NoDup_count_occ' string_dec). intros x Hx.
  repeat (destruct Hx as [<-|Hx]; [reflexivity|]). contradiction.
Qed.

Lemma usage_targets_distinct : NoDup (map target usage_rules).
Proof.
  apply (NoDup_count_occ' string_dec). intros x Hx.
  repeat (destruct Hx as [<-|Hx]; [reflexivity|]). contradiction.
Qed.

(** A column that no rule of the set targets comes out of the function
    with the cells it had. *)
Theorem untargeted_columns_are_kept (col : string) (df : DataFrame) :
  (~ In col (map target enrollment_rules) ->
   exists out, apply_enrollment_transforms parse df = Some out
               /\ getitem col out = getitem col df)
  /\ (~ In col (map target usage_rules) ->
      exists out, apply_usage_transforms parse df = Some out
                  /\ getitem col out = getitem col df).
Proof.
  split; intros Hnot.
  - exists (rules_result parse enrollment_rules df).
    split; [apply enrollment_result | now apply rules_result_untouched].
  - exists (rules_result parse usage_rules df).
    split; [apply usage_result | now apply rules_result_untouched].
Qed.

(** No two rules of a set share a target, so through the whole function a
    targeted column is rewritten by its one rule only, applied to the cells
    the column had on entry. *)
Theorem each_column_gets_its_one_rule (r : Rule) (df : DataFrame) (cells : list cell) :
  getitem (target r) df = Some cells ->
  (In r enrollment_rules ->
   exists out, apply_enrollment_transforms parse df = Some out
               /\ getitem (target r) out = Some (map (rule_cell parse r cells) cells))
  /\ (In r usage_rules ->
      exists out, apply_usage_transforms parse df = Some out
                  /\ getitem (target r) out = Some (map (rule_cell parse r cells) cells)).
Proof.
  intros Hg. split; intros Hin.
  - exists (rules_result parse enrollment_rules df).
    split; [apply enrollment_result|].
    now apply rules_result_target; [apply enrollment_targets_distinct | |].
  - exists (rules_result parse usage_rules df).
    split; [apply usage_result|].
    now apply rules_result_target; [apply usage_targets_distinct | |].
Qed.



End Columns.

(** Padding and comma stripping can be run again without effect: a second
    application returns the frame of the first. *)
Theorem padding_and_stripping_are_idempotent (col : string) (width : nat)
    (df : DataFrame) :
  (exists once, zero_pad col width df = Some once
                /\ zero_pad col width once = Some once)
  /\ (exists once, strip_commas col df = Some once
                   /\ strip_commas col once = Some once).
Proof.
  split.
  - exists (rule_result ymd_parser (ZeroPad col width) df).
    split; [apply (apply_rule_result ymd_parser (ZeroPad col width))|].
    change (zero_pad col width ?d) with (apply_rule ymd_parser (ZeroPad col width) d).
    rewrite apply_rule_result. f_equal. apply rule_result_idempotent.
    intros cells cells' c. simpl. apply text_cell_idempotent, zero_padded_idempotent.
  - exists (rule_result ymd_parser (StripSeparator col) df).
    split; [apply (apply_rule_result ymd_parser (StripSeparator col))|].
    change (strip_commas col ?d) with (apply_rule ymd_parser (StripSeparator col) d).
    rewrite apply_rule_result. f_equal. apply rule_result_idempotent.
    intros cells cells' c. simpl. apply text_cell_idempotent, comma_stripped_idempotent.
Qed.

(** ** Comma stripping and padded codes *)

(** A non-null cell under the comma rule becomes its text with every comma
    taken out and nothing else changed: no comma is left, and text without
    commas is kept as it is; [1,234,567] gives [1234567]. *)
Theorem strip_commas_removes_every_comma (col : string) (df : DataFrame)
    (i : nat) (c : cell) :
  get_cell col i df = Some c ->
  notna c = true ->
  exists out stripped,
    strip_commas col df = Some out
    /\ get_cell col i out = Some (CStr stripped)
    /\ stripped = without ","%char (astype_str c)
    /\ has_char ","%char stripped = false
    /\ (has_char ","%char (astype_str c) = false -> stripped = astype_str c)
    /\ (astype_str c = "1,234,567" -> stripped = "1234567").
Proof.
  intros Hc Hn.
  apply get_cell_getitem in Hc as (cells & Hg & Hi).
  destruct (apply_rule_cell ymd_parser (StripSeparator col) i df cells c Hg Hi)
    as (out & Hout & Hcell).
  simpl in Hout, Hcell. rewrite text_cell_notna in Hcell by exact Hn.
  exists out, (comma_stripped (astype_str c)).
  split; [exact Hout|]. split; [exact Hcell|].
  unfold comma_stripped. rewrite replace_one_char.
  split; [reflexivity|]. split; [apply without_has_char|].
  split; [apply without_id|].
  intros ->. reflexivity.
Qed.

Lemma zero_padded_drops_decimals (width : nat) (t rest : string) :
  has_char "."%char t = false ->
  zero_padded width (t ++ String "."%char rest) = zero_padded width t.
Proof.
  intros H. unfold zero_padded.
  now rewrite split_first_append, split_first_id.
Qed.

(** The padded codes of the two functions keep the number: a whole number
    below 10000 padded to 4, or below 100 padded to 2, is exactly that many
    digits and reads back as the number; and a float cell, printed with a
    decimal part, gives the same code as the integer before the dot. *)
Theorem padded_codes_keep_the_number (n : nat) (repr decimals : string) :
  (n < 100 * 100 -> code_reads_back 4 n = true)
  /\ (n < 100 -> code_reads_back 2 n = true)
  /\ (forall width,
        has_char "."%char repr = false ->
        text_cell (zero_padded width) (CFloat (repr ++ String "."%char decimals))
        = text_cell (zero_padded width) (CStr repr)).
Proof.
  split; [|split].
  - intros Hn.
    assert (Hall : forallb (code_reads_back 4) (seq 0 (100 * 100)) = true)
      by (vm_compute; reflexivity).
    rewrite forallb_forall in Hall. apply Hall, in_seq. lia.
  - intros Hn.
    assert (Hall : forallb (code_reads_back 2) (seq 0 100) = true)
      by (vm_compute; reflexivity).
    rewrite forallb_forall in Hall. apply Hall, in_seq. lia.
  - intros width H. unfold text_cell. simpl.
    now rewrite zero_padded_drops_decimals.
Qed.

(** ** File names *)

Lemma prefix_append (s b : string) : prefix s (s ++ b) = true.
Proof.
  induction s as [|c s IH]; simpl; [now destruct b|].
  destruct (ascii_dec c c); [exact IH | contradiction].
Qed.

Lemma find_unfold (old s : string) :
  find old s =
  if prefix old s then Some 0
  else match s with
       | EmptyString => None
       | String _ r => option_map S (find old r)
       end.
Proof.
  now destruct s.
Qed.

Lemma contains_middle (sub a b : string) : contains sub (a ++ sub ++ b) = true.
Proof.
  unfold contains. induction a as [|c a IH]; cbn [append]; rewrite find_unfold.
  - now rewrite prefix_append.
  - destruct (prefix sub (String c (a ++ sub ++ b))); [reflexivity|].
    now destruct (find sub (a ++ sub ++ b)).
Qed.

Lemma lower_append (a b : string) : lower (a ++ b) = lower a ++ lower b.
Proof.
  induction a as [|c a IH]; simpl; [reflexivity | now rewrite IH].
Qed.

Lemma basename_no_slash (p : string) :
  has_char "/"%char p = false -> basename p = p.
Proof.
  intros H. destruct p as [|c r]; [reflexivity|].
  cbn [basename]. now rewrite H.
Qed.

Lemma basename_after_slash (dir file : string) :
  has_char "/"%char file = false ->
  basename (dir ++ String "/"%char file) = file.
Proof.
  intros H. induction dir as [|c dir IH].
  - cbn [append basename has_char]. rewrite Ascii.eqb_refl. simpl.
    now apply basename_no_slash.
  - assert (E : has_char "/"%char (String c (dir ++ String "/"%char file)) = true).
    { cbn [has_char]. rewrite has_char_append. cbn [has_char].
      rewrite Ascii.eqb_refl. simpl. now rewrite !orb_true_r. }
    cbn [append basename]. rewrite E. exact IH.
Qed.

Lemma endswith_char (ch : ascii) (s : string) :
  endswith (String ch EmptyString) s = true ->
  exists x, s = x ++ String ch EmptyString.
Proof.
  unfold endswith. intros H. apply andb_true_iff in H as [_ H].
  apply String.eqb_eq in H.
  exists (take (String.length s - 1) s).
  cbn [String.length] in H. rewrite <- H. symmetry. apply take_drop.
Qed.

Lemma basename_join (target_dir filename : string) :
  has_char "/"%char filename = false ->
  basename (join target_dir filename) = filename.
Proof.
  intros H. unfold join, startswith.
  destruct (prefix "/" filename) eqn:Hp.
  - destruct filename as [|c r]; [discriminate|].
    cbn [prefix] in Hp. destruct (ascii_dec "/" c) as [<-|]; [|discriminate].
    cbn [has_char] in H. now rewrite Ascii.eqb_refl in H.
  - destruct (String.eqb_spec target_dir "") as [->|_]; simpl.
    + now apply basename_no_slash.
    + destruct (endswith "/" target_dir) eqn:He.
      * apply endswith_char in He as (x & ->).
        rewrite append_assoc. now apply basename_after_slash.
      * now apply basename_after_slash.
Qed.

Section Dispatch.

Variable parse : Parser.
Variable read_excel : string -> option DataFrame.

(** The reader comes before the name in [transform_excel_data]: the
    outcome is a read failure exactly when reading fails, whatever the
    name; the file is skipped exactly when it was read and its name holds
    neither keyword; and a frame that is saved is the result, on the frame
    that was read, of the one function that the name selects. *)
Theorem transform_outcome_follows_reader_then_name (input_file : string) :
  let name := lower (basename input_file) in
  (transform_excel_data parse read_excel input_file = ReadFailed
   <-> read_excel input_file = None)
  /\ (transform_excel_data parse read_excel input_file = Skipped
      <-> (exists df, read_excel input_file = Some df)
          /\ contains "enrollment" name = false /\ contains "usage" name = false)
  /\ (forall out,
        transform_excel_data parse read_excel input_file = Saved out ->
        exists df,
          read_excel input_file = Some df
          /\ (contains "enrollment" name = true
               /\ apply_enrollment_transforms parse df = Some out
              \/ contains "enrollment" name = false
                 /\ contains "usage" name = true
                 /\ apply_usage_transforms parse df = Some out)).
Proof.
  intros name. unfold transform_excel_data. fold name.
  destruct (read_excel input_file) as [df|].
  - destruct (contains "enrollment" name), (contains "usage" name);
      try destruct (apply_enrollment_transforms parse df) as [e|] eqn:He;
      try destruct (apply_usage_transforms parse df) as [u|] eqn:Hu;
      cbn [caught];
      (split; [split; discriminate|]);
      (split; [split; try discriminate; try (intros (_ & H1 & H2); discriminate);
               eauto|]);
      intros out H; try discriminate; injection H as <-; exists df; eauto 10.
  - split; [split; reflexivity|].
    split; [split; try discriminate; intros ((df & H) & _); discriminate|].
    intros out H. discriminate.
Qed.

(** The keyword is found whatever the letter case of the base name, and
    whatever the directory is called. *)
Theorem keyword_match_ignores_case_and_directory
    (dir before word after : string) (df : DataFrame) :
  has_char "/"%char (before ++ word ++ after) = false ->
  read_excel (dir ++ String "/"%char (before ++ word ++ after)) = Some df ->
  (lower word = "enrollment" ->
   exists out,
     apply_enrollment_transforms parse df = Some out
     /\ transform_excel_data parse read_excel
          (dir ++ String "/"%char (before ++ word ++ after)) = Saved out)
  /\ (lower word = "usage" ->
      contains "enrollment" (lower (before ++ word ++ after)) = false ->
      exists out,
        apply_usage_transforms parse df = Some out
        /\ transform_excel_data parse read_excel
             (dir ++ String "/"%char (before ++ word ++ after)) = Saved out).
Proof.
  intros Hfile Hread. unfold transform_excel_data.
  rewrite Hread, basename_after_slash by exact Hfile.
  rewrite enrollment_result, usage_result. cbn [caught].
  split.
  - intros Hw. rewrite !lower_append, Hw, contains_middle. eauto.
  - intros Hw Hno. rewrite Hno.
    rewrite !lower_append, Hw, contains_middle. eauto.
Qed.

(** For an entry of the folder, the file type that the scan loop logs is
    the branch that [transform_excel_data] takes on the joined path, even
    when the folder's own path holds a keyword. *)
Theorem logged_type_is_the_branch_taken (target_dir filename : string) (df : DataFrame) :
  has_char "/"%char filename = false ->
  read_excel (join target_dir filename) = Some df ->
  transform_excel_data parse read_excel (join target_dir filename) =
  match file_type (lower filename) with
  | EnrollmentFile => caught (apply_enrollment_transforms parse df)
  | UsageFile => caught (apply_usage_transforms parse df)
  | UnknownFile => Skipped
  end.
Proof.
  intros Hfile Hread. unfold transform_excel_data, file_type.
  rewrite Hread, basename_join by exact Hfile.
  now destruct (contains "enrollment" (lower filename)),
               (contains "usage" (lower filename)).
Qed.

End Dispatch.

(** ** More on the cleanup *)

Lemma prefix_length (a b : string) :
  prefix a b = true -> String.length a <= String.length b.
Proof.
  revert b. induction a as [|c a IH]; intros b H; [simpl; lia|].
  destruct b as [|d b]; [discriminate|]. cbn [prefix String.length] in *.
  destruct (ascii_dec c d); [|discriminate]. apply IH in H. lia.
Qed.

Lemma prefix_QQQ_before_char (a b : string) (c : ascii) :
  c <> dquote ->
  prefix QQQ (a ++ String c b) = prefix QQQ a.
Proof.
  intros Hc. unfold QQQ.
  destruct a as [|x1 [|x2 [|x3 a]]]; cbn [append prefix];
    repeat match goal with
           | |- context [ascii_dec dquote ?x] =>
               destruct (ascii_dec dquote x); try congruence; try reflexivity
           end.
  now destruct a.
Qed.

Lemma replace_from_before_char (a b : string) (c : ascii) (k : nat) :
  c <> dquote ->
  k <= String.length a ->
  replace_from QQQ Q k (a ++ String c b)
  = replace_from QQQ Q k a ++ String c (replace QQQ Q b).
Proof.
  intros Hc. revert k. induction a as [|x a IH]; intros k Hk.
  - assert (k = 0) as -> by (simpl in Hk; lia).
    cbn [append replace_from]. change (String c b) with ("" ++ String c b).
    rewrite prefix_QQQ_before_char by exact Hc. reflexivity.
  - destruct k as [|k].
    + change (String x a ++ String c b) with (String x (a ++ String c b)).
      cbn [replace_from].
      change (String x (a ++ String c b)) with (String x a ++ String c b).
      rewrite prefix_QQQ_before_char by exact Hc.
      destruct (prefix QQQ (String x a)) eqn:Hp.
      * apply prefix_length in Hp. cbn [String.length QQQ] in Hp.
        rewrite IH by (cbn [String.length QQQ Nat.sub]; lia). reflexivity.
      * rewrite IH by lia. reflexivity.
    + cbn [append replace_from]. apply IH. simpl in Hk. lia.
Qed.

Lemma cleanup_before_char (a b : string) (c : ascii) :
  c <> dquote ->
  cleanup (a ++ String c b) = cleanup a ++ String c (cleanup b).
Proof.
  intros Hc. unfold cleanup, replace at 1 2.
  apply replace_from_before_char; [exact Hc | lia].
Qed.

(** The cleanup never reaches across a character that is not a double
    quote: the text before it and the text after it are cleaned on their
    own.  Fields and lines of the file are therefore cleaned one by one. *)
Theorem cleanup_works_between_other_characters (a b : string) (c : ascii) :
  c <> dquote ->
  cleanup (a ++ String c b) = cleanup a ++ String c (cleanup b).
Proof.
  exact (cleanup_before_char a b c).
Qed.

Lemma replace_from_length (old new : string) (k : nat) (s : string) :
  old <> "" ->
  String.length (replace_from old new k s)
  + count_from old k s * String.length old + Nat.min k (String.length s)
  = String.length s + count_from old k s * String.length new.
Proof.
  intros Hold. revert k. induction s as [|c r IH]; intros k.
  - simpl. lia.
  - destruct k as [|k]; cbn [replace_from count_from String.length].
    + destruct (prefix old (String c r)) eqn:Hp.
      * apply prefix_length in Hp. cbn [String.length] in Hp.
        specialize (IH (String.length old - 1)).
        rewrite length_append.
        destruct old as [|o old']; [congruence|].
        cbn [String.length] in *. nia.
      * specialize (IH 0). simpl. lia.
    + specialize (IH k). lia.
Qed.

(** Each triple the scan meets shortens the text by two characters, and
    nothing else changes its length. *)
Theorem cleanup_length (content : string) :
  String.length (cleanup content) + 2 * count QQQ content = String.length content.
Proof.
  unfold cleanup, replace, count.
  assert (Hne : QQQ <> "") by discriminate.
  pose proof (replace_from_length QQQ Q 0 content Hne) as H.
  cbn [String.length QQQ Q] in H. rewrite Nat.min_0_l in H. lia.
Qed.

Lemma cleanup_three_more (n : nat) :
  cleanup (quotes (3 + n)) = String dquote (cleanup (quotes n)).
Proof.
  pose proof (prefix_append QQQ (quotes n)) as Hp.
  unfold cleanup, replace.
  change (quotes (3 + n)) with (QQQ ++ quotes n).
  change (QQQ ++ quotes n)
    with (String dquote (String dquote (String dquote (quotes n)))) in *.
  cbn [replace_from]. rewrite Hp. reflexivity.
Qed.

Lemma cleanup_run_step (k r : nat) :
  r < 3 -> cleanup (quotes (3 * k + r)) = quotes (k + r).
Proof.
  intros Hr. induction k as [|k IH].
  - destruct r as [|[|[|r]]]; try lia; reflexivity.
  - replace (3 * S k + r) with (3 + (3 * k + r)) by lia.
    rewrite cleanup_three_more, IH. reflexivity.
Qed.

(** A run of [n] double quotes comes out as a run of [n / 3 + n mod 3]: each
    full triple becomes one quote and the one or two quotes left over stay.
    Six quotes give two, but five give three and four give two. *)
Theorem cleanup_of_a_run_of_quotes (n : nat) :
  cleanup (quotes n) = quotes (n / 3 + n mod 3).
Proof.
  rewrite (Nat.div_mod_eq n 3) at 1.
  apply cleanup_run_step, Nat.mod_upper_bound. discriminate.
Qed.

(** ** The cleanup after the CSV writer *)

Lemma doubled_no_quote (v : string) :
  has_char dquote v = false -> doubled v = v.
Proof.
  induction v as [|c v IH]; cbn [has_char doubled]; [reflexivity|].
  intros H. apply orb_false_iff in H as [Hc Hv]. now rewrite Hc, IH.
Qed.

Lemma doubled_append (a b : string) : doubled (a ++ b) = doubled a ++ doubled b.
Proof.
  induction a as [|c a IH]; cbn [append doubled]; [reflexivity|].
  destruct (Ascii.eqb c dquote); cbn [append]; now rewrite IH.
Qed.

Lemma cleanup_triple (s : string) : cleanup (QQQ ++ s) = Q ++ cleanup s.
Proof.
  pose proof (prefix_append QQQ s) as Hp.
  unfold cleanup, replace.
  change (QQQ ++ s) with (String dquote (String dquote (String dquote s))) in *.
  cbn [replace_from]. rewrite Hp. reflexivity.
Qed.

Lemma cleanup_no_quote_prefix (v s : string) :
  has_char dquote v = false -> cleanup (v ++ s) = v ++ cleanup s.
Proof.
  induction v as [|c v IH]; cbn [has_char append]; [reflexivity|].
  intros H. apply orb_false_iff in H as [Hc Hv].
  apply Ascii.eqb_neq in Hc.
  change (String c (v ++ s)) with ("" ++ String c (v ++ s)).
  rewrite cleanup_before_char by exact Hc.
  now rewrite IH.
Qed.

Lemma needs_quoting_with_quote (field : string) :
  has_char dquote field = true -> needs_quoting field = true.
Proof.
  intros H. unfold needs_quoting. rewrite H.
  now rewrite orb_true_r.
Qed.

(** The cleanup undoes what the CSV writer does to a wrapped value: a value
    without double quotes of its own, wrapped by the quote rule or by the
    custom rule, written as a CSV field and then cleaned, is the wrapped
    value again, with one double quote on each side. *)
Theorem wrapped_values_survive_writer_and_cleanup (v : string) :
  has_char dquote v = false ->
  csv_field (double_quoted v) = QQQ ++ v ++ QQQ
  /\ cleanup (csv_field (double_quoted v)) = double_quoted v
  /\ cleanup (csv_field (custom_quoted v)) = custom_quoted v.
Proof.
  intros Hv.
  assert (Hd : csv_field (double_quoted v) = QQQ ++ v ++ QQQ).
  { unfold csv_field. rewrite needs_quoting_with_quote by reflexivity.
    unfold double_quoted. rewrite !doubled_append, (doubled_no_quote v Hv).
    rewrite !append_assoc. reflexivity. }
  assert (Hc : csv_field (custom_quoted v)
               = QQQ ++ String squote (v ++ String squote QQQ)).
  { unfold csv_field. rewrite needs_quoting_with_quote by reflexivity.
    unfold custom_quoted. cbn [doubled Ascii.eqb squote dquote Bool.eqb].
    rewrite doubled_append, (doubled_no_quote v Hv). cbn.
    rewrite append_assoc. reflexivity. }
  split; [exact Hd|]. split.
  - rewrite Hd, cleanup_triple, cleanup_no_quote_prefix by exact Hv. reflexivity.
  - rewrite Hc, cleanup_triple.
    change (String squote (v ++ String squote QQQ))
      with (String squote "" ++ v ++ String squote "" ++ QQQ).
    rewrite !cleanup_no_quote_prefix by (exact Hv || reflexivity).
    unfold custom_quoted. reflexivity.
Qed.

(** The cleanup is applied to every field, also outside the rule columns:
    a text without other double quotes that ends with one is written by the
    CSV writer with three quotes at its end, and comes out of the cleanup as
    the quoted form of the text without its last quote. *)
Theorem cleanup_drops_a_trailing_quote (t : string) :
  has_char dquote t = false ->
  csv_field (t ++ Q) = Q ++ t ++ QQQ
  /\ cleanup (csv_field (t ++ Q)) = Q ++ doubled t ++ Q.
Proof.
  intros Ht.
  assert (Hf : csv_field (t ++ Q) = Q ++ t ++ QQQ).
  { unfold csv_field. rewrite needs_quoting_with_quote.
    - rewrite doubled_append, (doubled_no_quote t Ht).
      rewrite !append_assoc. reflexivity.
    - rewrite has_char_append. cbn. now rewrite orb_true_r. }
  split; [exact Hf|]. rewrite Hf, (doubled_no_quote t Ht).
  destruct t as [|c r].
  - reflexivity.
  - cbn [has_char] in Ht. apply orb_false_iff in Ht as [Hc Hr].
    apply Ascii.eqb_neq in Hc.
    change (Q ++ String c r ++ QQQ) with (Q ++ String c (r ++ QQQ)).
    rewrite cleanup_before_char by exact Hc.
    rewrite cleanup_no_quote_prefix by exact Hr. reflexivity.
Qed.

(** ** The folder scan *)

Lemma drop_length_plus (a b : string) (k : nat) :
  drop (String.length a + k) (a ++ b) = drop k b.
Proof.
  induction a as [|c a IH]; [reflexivity | exact IH].
Qed.

Lemma drop_length_append (a b : string) : drop (String.length a) (a ++ b) = b.
Proof.
  induction a as [|c a IH]; simpl; [now destruct b | exact IH].
Qed.

Lemma take_length_append (a b : string) : take (String.length a) (a ++ b) = a.
Proof.
  induction a as [|c a IH]; simpl; [now destruct b | now rewrite IH].
Qed.

Lemma endswith_append (suffix a b : string) :
  String.length suffix <= String.length b ->
  endswith suffix (a ++ b) = endswith suffix b.
Proof.
  intros H. unfold endswith. rewrite length_append.
  replace (String.length a + String.length b - String.length suffix)
    with (String.length a + (String.length b - String.length suffix)) by lia.
  rewrite drop_length_plus.
  apply Nat.leb_le in H as H1. rewrite H1.
  assert (H2 : (String.length suffix <=? String.length a + String.length b)%nat = true)
    by (apply Nat.leb_le; lia).
  now rewrite H2.
Qed.

Lemma csv_names_have_no_spreadsheet_extension (base : string) :
  endswith ".xlsx" (lower (base ++ "_final.csv"))
  || endswith ".xls" (lower (base ++ "_final.csv")) = false
  /\ endswith ".xlsx" (lower (base ++ "_intermediate.csv"))
     || endswith ".xls" (lower (base ++ "_intermediate.csv")) = false.
Proof.
  rewrite !lower_append.
  rewrite !endswith_append by (simpl; lia).
  split; reflexivity.
Qed.

(** The files that a turn of the loop writes are skipped by the loop: a
    name made of a base and [_final.csv] or [_intermediate.csv] has no
    spreadsheet extension, whatever the base. *)
Theorem outputs_are_not_inputs (isdir : string -> bool) (input_path base : string) :
  skipped isdir input_path (base ++ "_final.csv") = true
  /\ skipped isdir input_path (base ++ "_intermediate.csv") = true.
Proof.
  destruct (csv_names_have_no_spreadsheet_extension base) as [Hf Hi].
  unfold skipped. rewrite Hf, Hi. cbn [negb]. now rewrite !orb_true_r.
Qed.

Lemma rfind_char_none (ch : ascii) (s : string) :
  has_char ch s = false -> rfind_char ch s = None.
Proof.
  induction s as [|c s IH]; cbn [has_char rfind_char]; [reflexivity|].
  intros H. apply orb_false_iff in H as [Hc Hs]. now rewrite IH, Hc.
Qed.

Lemma rfind_char_last (ch : ascii) (a b : string) :
  has_char ch b = false ->
  rfind_char ch (a ++ String ch b) = Some (String.length a).
Proof.
  intros Hb. induction a as [|c a IH]; cbn [append rfind_char String.length].
  - now rewrite rfind_char_none, Ascii.eqb_refl.
  - now rewrite IH.
Qed.

Lemma splitext_added (root ext : string) :
  has_char "/"%char root = false ->
  has_char "/"%char ext = false ->
  has_char "."%char ext = false ->
  splitext (root ++ String "."%char ext)
  = if all_dots root then (root ++ String "."%char ext, EmptyString)
    else (root, String "."%char ext).
Proof.
  intros Hr He Hd. unfold splitext.
  rewrite rfind_char_last by exact Hd.
  rewrite rfind_char_none.
  - cbn [Nat.leb drop]. rewrite Nat.sub_0_r.
    replace (drop 0 (root ++ String "."%char ext)) with (root ++ String "."%char ext)
      by now destruct (root ++ String "."%char ext).
    rewrite take_length_append.
    destruct (all_dots root); cbn [negb andb]; [reflexivity|].
    f_equal. apply drop_length_append.
  - rewrite has_char_append. cbn [has_char]. now rewrite Hr, He.
Qed.

(** [splitext] undoes the adding of an extension to the name of a folder
    entry: the name is cut at the added dot, unless the part before it is
    empty or made of dots only, in which case the name is not cut. *)
Theorem splitext_of_added_extension (root ext : string) :
  has_char "/"%char root = false ->
  has_char "/"%char ext = false ->
  has_char "."%char ext = false ->
  splitext (root ++ String "."%char ext)
  = if all_dots root then (root ++ String "."%char ext, EmptyString)
    else (root, String "."%char ext).
Proof.
  exact (splitext_added root ext).
Qed.

(** Two entries that differ only in having the extension [.xlsx] or [.xls]
    are both processed and write the same intermediate and final files:
    the later one overwrites the output of the earlier one. *)
Theorem xlsx_and_xls_share_their_outputs (isdir : string -> bool)
    (target_dir root : string) :
  has_char "/"%char root = false ->
  all_dots root = false ->
  final_output_filename target_dir (root ++ ".xlsx") = join target_dir (root ++ "_final.csv")
  /\ final_output_filename target_dir (root ++ ".xls") = join target_dir (root ++ "_final.csv")
  /\ intermediate_csv_filename target_dir (root ++ ".xlsx")
     = intermediate_csv_filename target_dir (root ++ ".xls")
  /\ (startswith "~" root = false ->
      isdir (join target_dir (root ++ ".xlsx")) = false ->
      isdir (join target_dir (root ++ ".xls")) = false ->
      skipped isdir (join target_dir (root ++ ".xlsx")) (root ++ ".xlsx") = false
      /\ skipped isdir (join target_dir (root ++ ".xls")) (root ++ ".xls") = false).
Proof.
  intros Hr Hdots.
  unfold final_output_filename, intermediate_csv_filename.
  change (root ++ ".xlsx") with (root ++ String "."%char "xlsx").
  change (root ++ ".xls") with (root ++ String "."%char "xls").
  rewrite !splitext_added by (exact Hr || reflexivity).
  rewrite Hdots. cbn [fst].
  split; [reflexivity|]. split; [reflexivity|]. split; [reflexivity|].
  intros Htilde Hd1 Hd2.
  assert (Hstart : forall ext, startswith "~" (root ++ ext) = false).
  { intros ext. destruct root as [|c r]; [discriminate|].
    unfold startswith in *. cbn [append prefix] in *.
    destruct (ascii_dec "~" c); [now destruct r | reflexivity]. }
  unfold skipped. rewrite Hd1, Hd2, !Hstart, !lower_append.
  rewrite (endswith_append ".xlsx" _ (lower (String "."%char "xlsx"))) by (simpl; lia).
  rewrite (endswith_append ".xls" _ (lower (String "."%char "xls"))) by (simpl; lia).
  split; cbn; now rewrite ?orb_true_r.
Qed.

Lemma prefix_empty (s : string) : prefix "" s = true.
Proof.
  now destruct s.
Qed.

Lemma append_inj_l (a x y : string) : a ++ x = a ++ y -> x = y.
Proof.
  induction a as [|c a IH]; cbn [append]; [trivial|].
  intros [= H]. now apply IH.
Qed.

Lemma join_inj (a x y : string) :
  startswith "/" x = startswith "/" y -> join a x = join a y -> x = y.
Proof.
  unfold join. intros <-.
  destruct (startswith "/" x); [trivial|].
  destruct (String.eqb a "" || endswith "/" a); intros H.
  - now apply append_inj_l in H.
  - apply append_inj_l in H. now injection H.
Qed.

Lemma output_names_differ (target_dir filename : string) :
  intermediate_csv_filename target_dir filename
  <> final_output_filename target_dir filename.
Proof.
  unfold intermediate_csv_filename, final_output_filename.
  intros H. apply join_inj in H.
  - apply append_inj_l in H. discriminate.
  - unfold startswith. destruct (fst (splitext filename)) as [|c r]; [reflexivity|].
    cbn [append prefix]. destruct (ascii_dec "/" c); [|reflexivity].
    now rewrite !prefix_empty.
Qed.

Section Scan.

Variable parse : Parser.
Variable to_csv : DataFrame -> string.
Variable read_excel : string -> option DataFrame.
Variable isdir : string -> bool.
Variable target_dir : string.

Lemma process_file_saved (filename : string)
    (fs : FileSystem) (count : nat) (out : DataFrame) :
  skipped isdir (join target_dir filename) filename = false ->
  transform_excel_data parse read_excel (join target_dir filename) = Saved out ->
  let state := process_file parse to_csv read_excel isdir target_dir filename (fs, count) in
  fst state (final_output_filename target_dir filename) = Some (cleanup (to_csv out))
  /\ fst state (intermediate_csv_filename target_dir filename) = None
  /\ snd state = S count
  /\ forall p, p <> final_output_filename target_dir filename ->
               p <> intermediate_csv_filename target_dir filename ->
               fst state p = fs p.
Proof.
  intros Hskip Hsaved. unfold process_file. rewrite Hskip, Hsaved.
  cbn [fst snd]. unfold find_and_replace_quotes, write_file, remove_file.
  pose proof (output_names_differ target_dir filename) as Hne.
  rewrite !String.eqb_refl.
  repeat split.
  - destruct (String.eqb_spec (final_output_filename target_dir filename)
                (intermediate_csv_filename target_dir filename)) as [E|_];
      [now symmetry in E | reflexivity].
  - intros p Hf Hi.
    destruct (String.eqb_spec p (intermediate_csv_filename target_dir filename));
      [contradiction|].
    destruct (String.eqb_spec p (final_output_filename target_dir filename));
      [contradiction | reflexivity].
Qed.

(** A turn of the loop on an entry that is not skipped and whose frame is
    saved ends with the final file holding the cleaned serialization, the
    intermediate file gone, the count one higher and every other file as
    it was. *)
Theorem saved_entry_leaves_only_its_final_file (filename : string)
    (fs : FileSystem) (count : nat) (out : DataFrame) :
  skipped isdir (join target_dir filename) filename = false ->
  transform_excel_data parse read_excel (join target_dir filename) = Saved out ->
  let state := process_file parse to_csv read_excel isdir target_dir filename (fs, count) in
  fst state (final_output_filename target_dir filename) = Some (cleanup (to_csv out))
  /\ fst state (intermediate_csv_filename target_dir filename) = None
  /\ snd state = S count
  /\ forall p, p <> final_output_filename target_dir filename ->
               p <> intermediate_csv_filename target_dir filename ->
               fst state p = fs p.
Proof.
  exact (process_file_saved filename fs count out).
Qed.

Lemma process_file_not_counted (filename : string) (state : FileSystem * nat) :
  counted parse read_excel isdir target_dir filename = false ->
  process_file parse to_csv read_excel isdir target_dir filename state = state.
Proof.
  unfold counted, process_file.
  destruct (skipped isdir (join target_dir filename) filename); [reflexivity|].
  now destruct (transform_excel_data parse read_excel (join target_dir filename)).
Qed.

Lemma process_file_frame (filename p : string) (state : FileSystem * nat) :
  p <> final_output_filename target_dir filename ->
  p <> intermediate_csv_filename target_dir filename ->
  fst (process_file parse to_csv read_excel isdir target_dir filename state) p
  = fst state p
  /\ snd (process_file parse to_csv read_excel isdir target_dir filename state)
     = snd state + (if counted parse read_excel isdir target_dir filename then 1 else 0).
Proof.
  intros Hf Hi. destruct state as [fs count].
  destruct (counted parse read_excel isdir target_dir filename) eqn:Hc.
  - unfold counted in Hc. apply andb_true_iff in Hc as [Hs Ht].
    apply negb_true_iff in Hs.
    destruct (transform_excel_data parse read_excel (join target_dir filename))
      as [out| | |] eqn:Hout; try discriminate.
    destruct (process_file_saved filename fs count out Hs Hout)
      as (_ & _ & Hn & Hp).
    split; [now apply Hp | cbn [snd]; rewrite Hn; lia].
  - rewrite process_file_not_counted by exact Hc. cbn [snd]. split; [reflexivity | lia].
Qed.

End Scan.

Lemma has_char_take (ch : ascii) (n : nat) (s : string) :
  has_char ch s = false -> has_char ch (take n s) = false.
Proof.
  revert s. induction n as [|n IH]; intros [|c s] H; cbn [take has_char] in *;
    try reflexivity.
  apply orb_false_iff in H as [Hc Hs]. now rewrite Hc, IH.
Qed.

Lemma splitext_root_no_slash (filename : string) :
  has_char "/"%char filename = false ->
  has_char "/"%char (fst (splitext filename)) = false.
Proof.
  intros H. unfold splitext.
  destruct (rfind_char "."%char filename) as [dotIndex|]; [|exact H].
  match goal with |- context [if ?b then _ else _] => destruct b end;
    [now apply has_char_take | exact H].
Qed.

Lemma startswith_slash_no_slash (s : string) :
  has_char "/"%char s = false -> startswith "/" s = false.
Proof.
  unfold startswith. destruct s as [|c r]; [reflexivity|].
  cbn [has_char prefix]. intros H. apply orb_false_iff in H as [Hc _].
  destruct (ascii_dec "/" c) as [<-|]; [discriminate | reflexivity].
Qed.

(** The path of an entry with a spreadsheet extension is never the path of
    an intermediate or final file. *)
Lemma spreadsheet_is_no_output (target_dir filename entry : string) :
  has_char "/"%char filename = false ->
  has_char "/"%char entry = false ->
  endswith ".xlsx" (lower entry) || endswith ".xls" (lower entry) = true ->
  join target_dir entry <> final_output_filename target_dir filename
  /\ join target_dir entry <> intermediate_csv_filename target_dir filename.
Proof.
  intros Hf He Hext.
  pose proof (splitext_root_no_slash filename Hf) as Hroot.
  destruct (csv_names_have_no_spreadsheet_extension (fst (splitext filename)))
    as [Hfinal Hinter].
  assert (Hslash : forall tail,
             has_char "/"%char tail = false ->
             startswith "/" entry
             = startswith "/" (fst (splitext filename) ++ tail)).
  { intros tail Htail.
    rewrite !startswith_slash_no_slash; [reflexivity | | exact He].
    rewrite has_char_append. now rewrite Hroot, Htail. }
  unfold final_output_filename, intermediate_csv_filename.
  split; intros E; apply join_inj in E; try (apply Hslash; reflexivity);
    subst entry; congruence.
Qed.

Section Folder.

Variable parse : Parser.
Variable to_csv : DataFrame -> string.
Variable read_excel : string -> option DataFrame.
Variable isdir : string -> bool.
Variable target_dir : string.

Lemma scan_from (listdir : list string) (state : FileSystem * nat) (p : string) :
  (forall filename, In filename listdir ->
     p <> final_output_filename target_dir filename
     /\ p <> intermediate_csv_filename target_dir filename) ->
  let final :=
    fold_left (fun st filename =>
                 process_file parse to_csv read_excel isdir target_dir filename st)
              listdir state in
  fst final p = fst state p
  /\ snd final
     = snd state
       + List.length (filter (counted parse read_excel isdir target_dir) listdir).
Proof.
  revert state. induction listdir as [|f rest IH]; intros state Hp; cbn [fold_left].
  - simpl. split; [reflexivity | lia].
  - destruct (Hp f (or_introl eq_refl)) as [Hf Hi].
    destruct (process_file_frame parse to_csv read_excel isdir target_dir f p state Hf Hi)
      as [Hfs Hn].
    destruct (IH (process_file parse to_csv read_excel isdir target_dir f state))
      as [IHfs IHn]; [intros g Hg; apply Hp; now right|].
    cbn zeta in *. rewrite IHfs, IHn, Hfs, Hn. split; [reflexivity|].
    cbn [filter]. destruct (counted parse read_excel isdir target_dir f); simpl; lia.
Qed.

(** The scan of a folder never writes or removes a spreadsheet of that
    folder: whatever the entries are, a path with a spreadsheet extension
    holds after the scan what it held before.  The count it reports is the
    number of entries that are not skipped and whose frame is saved. *)
Theorem scan_leaves_spreadsheets_alone (listdir : list string) (fs : FileSystem)
    (entry : string) :
  (forall filename, In filename listdir -> has_char "/"%char filename = false) ->
  has_char "/"%char entry = false ->
  endswith ".xlsx" (lower entry) || endswith ".xls" (lower entry) = true ->
  fst (scan parse to_csv read_excel isdir target_dir listdir fs) (join target_dir entry)
  = fs (join target_dir entry)
  /\ snd (scan parse to_csv read_excel isdir target_dir listdir fs)
     = List.length (filter (counted parse read_excel isdir target_dir) listdir).
Proof.
  intros Hnames Hentry Hext. unfold scan.
  apply (scan_from listdir (fs, 0) (join target_dir entry)).
  intros filename Hin. apply spreadsheet_is_no_output; auto.
Qed.

End Folder.

(** ** The further properties on concrete data *)

Lemma untargeted_columns_are_kept_witness :
  exists out,
    apply_enrollment_transforms ymd_parser [("NOTE", [CInt 7]); ("CITY_GATE", [CInt 7])]
    = Some out
    /\ getitem "NOTE" out = Some [CInt 7].
Proof.
  apply (proj1 (untargeted_columns_are_kept ymd_parser "NOTE"
                  [("NOTE", [CInt 7]); ("CITY_GATE", [CInt 7])])).
  apply (count_occ_not_In string_dec). reflexivity.
Defined.

Lemma each_column_gets_its_one_rule_witness :
  exists out,
    apply_usage_transforms ymd_parser [("USAGE", [CStr "1,200"; CNull])] = Some out
    /\ getitem "USAGE" out = Some [CStr "1200"; CNull].
Proof.
  apply (proj2 (each_column_gets_its_one_rule ymd_parser (StripSeparator "USAGE")
                  [("USAGE", [CStr "1,200"; CNull])] [CStr "1,200"; CNull] eq_refl)).
  unfold usage_rules. simpl. do 12 right. left. reflexivity.
Defined.


Lemma strip_commas_removes_every_comma_witness :
  exists out stripped,
    strip_commas "USAGE" [("USAGE", [CStr "1,234,567"])] = Some out
    /\ get_cell "USAGE" 0 out = Some (CStr stripped)
    /\ stripped = "1234567".
Proof.
  destruct (strip_commas_removes_every_comma "USAGE" [("USAGE", [CStr "1,234,567"])]
              0 (CStr "1,234,567") eq_refl eq_refl)
    as (out & stripped & Hout & Hcell & _ & _ & _ & Hex).
  exists out, stripped. repeat split; try assumption. now apply Hex.
Defined.

Lemma padded_codes_keep_the_number_witness :
  code_reads_back 4 42 = true
  /\ text_cell (zero_padded 4) (CFloat "42.0") = text_cell (zero_padded 4) (CStr "42").
Proof.
  destruct (padded_codes_keep_the_number 42 "42" "0") as (H4 & _ & Hf).
  split; [apply H4; lia | apply Hf; reflexivity].
Defined.

Lemma keyword_match_ignores_case_and_directory_witness :
  exists out,
    apply_enrollment_transforms ymd_parser jane_row = Some out
    /\ transform_excel_data ymd_parser (fun _ => Some jane_row)
         "usage/May ENROLLMENT.xlsx" = Saved out.
Proof.
  exact (proj1 (keyword_match_ignores_case_and_directory ymd_parser
                  (fun _ => Some jane_row) "usage" "May " "ENROLLMENT" ".xlsx"
                  jane_row eq_refl eq_refl) eq_refl).
Defined.

Lemma logged_type_is_the_branch_taken_witness :
  transform_excel_data ymd_parser (fun _ => Some jane_row)
    (join "enrollment" "notes.xlsx") = Skipped.
Proof.
  exact (logged_type_is_the_branch_taken ymd_parser (fun _ => Some jane_row)
           "enrollment" "notes.xlsx" jane_row eq_refl eq_refl).
Defined.

Lemma cleanup_works_between_other_characters_witness :
  cleanup (QQQ ++ String ","%char QQQ) = cleanup QQQ ++ String ","%char (cleanup QQQ).
Proof.
  apply (cleanup_works_between_other_characters QQQ QQQ ","%char). discriminate.
Defined.

Lemma wrapped_values_survive_writer_and_cleanup_witness :
  cleanup (csv_field (double_quoted "Doe, Jane")) = double_quoted "Doe, Jane".
Proof.
  exact (proj1 (proj2 (wrapped_values_survive_writer_and_cleanup "Doe, Jane" eq_refl))).
Defined.

Lemma cleanup_drops_a_trailing_quote_witness :
  cleanup (csv_field ("5 1/2" ++ Q)) = Q ++ "5 1/2" ++ Q.
Proof.
  exact (proj2 (cleanup_drops_a_trailing_quote "5 1/2" eq_refl)).
Defined.

Lemma splitext_of_added_extension_witness :
  splitext ("report.v2" ++ String "."%char "xlsx") = ("report.v2", ".xlsx").
Proof.
  exact (splitext_of_added_extension "report.v2" "xlsx" eq_refl eq_refl eq_refl).
Defined.

Lemma xlsx_and_xls_share_their_outputs_witness :
  final_output_filename "in" ("report" ++ ".xlsx")
  = final_output_filename "in" ("report" ++ ".xls").
Proof.
  destruct (xlsx_and_xls_share_their_outputs (fun _ => false) "in" "report"
              eq_refl eq_refl) as (H1 & H2 & _).
  now rewrite H1, H2.
Defined.

Lemma saved_entry_leaves_only_its_final_file_witness :
  let state :=
    process_file ymd_parser (fun _ => QQQ ++ "Jane Doe" ++ QQQ)
      (fun _ => Some jane_row) (fun _ => false) "in" "enrollment.xlsx"
      (fun _ => None, 0) in
  fst state "in/enrollment_final.csv" = Some (Q ++ "Jane Doe" ++ Q)
  /\ fst state "in/enrollment_intermediate.csv" = None
  /\ snd state = 1.
Proof.
  destruct (saved_entry_leaves_only_its_final_file ymd_parser
              (fun _ => QQQ ++ "Jane Doe" ++ QQQ)
              (fun _ => Some jane_row) (fun _ => false) "in" "enrollment.xlsx"
              (fun _ => None) 0 jane_row_done eq_refl)
    as (Hf & Hi & Hn & _).
  - vm_compute. reflexivity.
  - repeat split; assumption.
Defined.

Lemma scan_leaves_spreadsheets_alone_witness :
  fst (scan ymd_parser (fun _ => "x") (fun _ => Some jane_row) (fun _ => false) "in"
         ["enrollment.xlsx"; "notes.txt"] (fun _ => Some "sheet"))
      (join "in" "enrollment.xlsx")
  = Some "sheet".
Proof.
  apply (scan_leaves_spreadsheets_alone ymd_parser (fun _ => "x")
           (fun _ => Some jane_row) (fun _ => false) "in"
           ["enrollment.xlsx"; "notes.txt"] (fun _ => Some "sheet")
           "enrollment.xlsx").
  - intros f [<-|[<-|[]]]; reflexivity.
  - reflexivity.
  - reflexivity.
Defined.
